(** * Folding controller of the editor: a shallow embedding

    Source: [src/vs/editor/contrib/folding/browser/folding.ts], class
    [FoldingController].

    The controller is a JavaScript object whose methods read and assign its
    fields; a method is embedded as a function from the controller's state to
    a completion (normal return or a thrown [TypeError]) and the state it
    leaves behind.  A callback given to [getFoldingModel().then(...)] is
    embedded as a separate function of the folding model the promise
    resolves with, and the method returns the callback it registered.

    Numbers are JavaScript numbers in the source; line numbers, columns and
    pixel measures are taken as integers ([Z]). *)

From Stdlib Require Import ZArith Lia.
From stdpp Require Import base decidable option list sorting strings.

Open Scope Z_scope.

(** ** Text positions and ranges ([vs/editor/common/core]) *)

Record Position := { pos_lineNumber : Z; pos_column : Z }.

Record Range := {
  startLineNumber : Z;
  startColumn : Z;
  endLineNumber : Z;
  endColumn : Z
}.

(** [range.getEndPosition()] *)
Definition getEndPosition (r : Range) : Position :=
  {| pos_lineNumber := endLineNumber r; pos_column := endColumn r |}.

Record Selection := {
  selectionStartLineNumber : Z;
  selectionStartColumn : Z;
  positionLineNumber : Z;
  positionColumn : Z
}.

(** ** The text buffer and the editor, as far as the controller reads them *)

Record TextModel := {
  getLineCount : Z;
  getLineMaxColumn : Z → Z;
  getDecorationRange : string → option Range
}.

(** What [getScrolledVisiblePosition] returns. *)
Record ScrolledPosition := { sp_top : Z; sp_left : Z; sp_height : Z }.

Record Editor := {
  getModel : option TextModel;
  getSelections : list Selection;
  (** [dom.getDomNodePagePosition(editor.getDomNode()).top] *)
  domNodePagePosition_top : Z;
  getScrolledVisiblePosition : Position → ScrolledPosition
}.

Inductive ScrollType := Smooth | Immediate.

(** A call of [editor.revealPositionInCenterIfOutsideViewport]. *)
Record RevealRequest := { reveal_position : Position; reveal_scroll : ScrollType }.

(** ** Mouse events ([vs/editor/browser/editorBrowser]) *)

Module EditorBrowser.

(** The members of [MouseTargetType] the controller names; every other
    member takes the [default] branch of the [switch] and is
    [OTHER_TARGET] here. *)
Inductive MouseTargetType :=
| GUTTER_LINE_DECORATIONS
| CONTENT_TEXT
| CONTENT_EMPTY
| OTHER_TARGET.

(** [IMarginData], the [detail] of a target in the gutter. *)
Record IMarginData := {
  offsetX : Z;
  glyphMarginWidth : Z;
  lineNumbersWidth : Z
}.

Record IMouseTarget := {
  type : MouseTargetType;
  range : option Range;
  detail : IMarginData
}.

Record IMouseEvent := { leftButton : bool; posy : Z }.

Record IEditorMouseEvent := { event : IMouseEvent; target : IMouseTarget }.

Definition is_gutter_line_decorations (t : MouseTargetType) : bool :=
  match t with GUTTER_LINE_DECORATIONS => true | _ => false end.

End EditorBrowser.

(** ** Candidate ranges ([vs/editor/contrib/folding/common/indentFoldStrategy]) *)

Module IndentFoldStrategy.

(** A candidate range: [{startLine, endLine, nestingLevel}]. *)
Record IndentRange := {
  startLineNumber : Z;
  endLineNumber : Z;
  nestingLevel : nat
}.

(** Number of candidates nested less deep than [level]. *)
Definition countBelow (ranges : list IndentRange) (level : nat) : nat :=
  length (filter (λ r, (nestingLevel r < level)%nat) ranges).

(** The deepest nesting level among the candidates. *)
Definition deepestLevel (ranges : list IndentRange) : nat :=
  foldr (λ r deepest, Nat.max (nestingLevel r) deepest) 0%nat ranges.

(** Going up from [level], at most [fuel] levels: the first cut from which
    one more level would let in more than [maxEntries] candidates. *)
Fixpoint nestingCut (ranges : list IndentRange) (maxEntries : nat)
    (fuel level : nat) : nat :=
  match fuel with
  | O => level
  | S fuel' =>
      if decide (countBelow ranges (S level) ≤ maxEntries)%nat
      then nestingCut ranges maxEntries fuel' (S level)
      else level
  end.

(** Modelled from the spec: [limitByIndent] of indentFoldStrategy.ts is not
    among the sources.  The spec has it cap "the candidate count at a fixed
    maximum ... via a size-limiting policy that favors shallower nesting
    when truncating": a list within the maximum is returned as it is;
    otherwise the candidates are kept by whole nesting levels, shallowest
    first, up to the first level that would no longer fit, in their order. *)
Definition limitByIndent (ranges : list IndentRange) (maxEntries : nat)
    : list IndentRange :=
  if decide (length ranges ≤ maxEntries)%nat then ranges
  else
    let cut := nestingCut ranges maxEntries (S (deepestLevel ranges)) 0 in
    filter (λ r, (nestingLevel r < cut)%nat) ranges.

(** The order of the comparator [(r1, r2) => r1.startLineNumber -
    r2.startLineNumber]: [r1] may stand before [r2]. *)
Definition byStartLine (r1 r2 : IndentRange) : Prop :=
  startLineNumber r1 ≤ startLineNumber r2.

Global Instance byStartLine_dec : RelDecision byStartLine.
Proof. intros r1 r2. unfold byStartLine. apply _. Defined.

(** [Array.prototype.sort] with that comparator.  The engine's algorithm is
    not fixed by the language; a merge sort stands for it (the claims use
    only that the result is ordered and has the same elements). *)
Definition sortByStartLine (ranges : list IndentRange) : list IndentRange :=
  merge_sort byStartLine ranges.

End IndentFoldStrategy.

(** ** Regions and the folding model ([vs/editor/contrib/folding/common/foldingModel]) *)

(** A region object: the fields the controller reads. *)
Record FoldingRegion := {
  region_range : Range;
  isCollapsed : bool;
  editorDecorationId : option string
}.

(** The folding model owns its regions, an ordered sequence. *)
Record FoldingModel := { regions : list FoldingRegion }.

(** A reference to a region object of a model: its place in [regions]. *)
Definition RegionRef := nat.

(** [new FoldingModel(model, decorationProvider)]: no region yet. *)
Definition newFoldingModel : FoldingModel := {| regions := [] |}.

Definition flipCollapsed (r : FoldingRegion) : FoldingRegion :=
  {| region_range := region_range r;
     isCollapsed := negb (isCollapsed r);
     editorDecorationId := editorDecorationId r |}.

(** Modelled from the spec: [FoldingModel.toggleCollapseState] of
    foldingModel.ts is not among the sources.  The spec:
    "toggleCollapseState(list<Region>) (flips each listed region's collapsed
    flag; no-op on empty list)".  A region is flipped when it is among the
    listed ones; nothing else of the model changes. *)
Definition toggleCollapseState (toToggle : list RegionRef) (m : FoldingModel)
    : FoldingModel :=
  {| regions :=
       imap (λ i r, if bool_decide (i ∈ toToggle) then flipCollapsed r else r)
            (regions m) |}.

(** The queries of the folding model and of the hidden-range model, and the
    range computation: code of other files, taken as parameters.
    [regionsAtLine m line] is [m.getAllRegionsAtLine(line)] without a filter. *)
Class Collaborators := {
  getRegionAtLine : FoldingModel → Z → option RegionRef;
  regionsAtLine : FoldingModel → Z → list RegionRef;
  isHidden : FoldingModel → Z → bool;
  strategy_computeRanges : TextModel → list IndentFoldStrategy.IndentRange
}.

(** The region object behind a reference. *)
Definition regionOf (m : FoldingModel) (ref : RegionRef) : option FoldingRegion :=
  regions m !! ref.

(** The collapse flag of the region behind a reference. *)
Definition collapsedAt (m : FoldingModel) (ref : RegionRef) : option bool :=
  isCollapsed <$> regionOf m ref.


(** Modelled from the spec: [FoldingModel.getAllRegionsAtLine] of
    foldingModel.ts is not among the sources.  The spec:
    "getAllRegionsAtLine(line, predicate) -> list<Region>": the regions at
    the line that satisfy the predicate. *)
Definition getAllRegionsAtLine `{Collaborators} (m : FoldingModel) (line : Z)
    (predicate : FoldingRegion → bool) : list RegionRef :=
  filter (λ ref, from_option predicate false (regionOf m ref) = true)
         (regionsAtLine m line).

(** ** The controller's state *)

Record MouseDownInfo := { lineNumber : Z; iconClicked : bool }.

(** [new Delayer<FoldingModel>(delay)] and [new RunOnceScheduler(runner, timeout)]. *)
Record Delayer := { delayer_delay : Z }.
Record RunOnceScheduler := { scheduler_timeout : Z }.

(** The promise [updateScheduler.trigger(...)] hands out; it resolves with the
    controller's folding model once the update has run. *)
Inductive TPromise := TriggeredBy (d : Delayer).

(** What [onModelChanged] pushes on [localToDispose], in the order of the
    source (lines 154 to 169). *)
Inductive Disposable :=
| TheFoldingModel
| TheHiddenRangeModel
| HiddenRangeListener
| UpdateSchedulerCancel
| TheCursorChangedScheduler
| LanguageConfigurationListener
| ModelContentListener
| CursorPositionListener
| MouseDownListener
| MouseUpListener.

(** [dispose(disposables)] of vs/base/common/lifecycle disposes each entry
    and returns an empty array. *)
Definition dispose (disposables : list Disposable) : list Disposable := [].

(** The fields of a [FoldingController].  [hiddenRangeModel] is a view of the
    folding model it was built from (line 156) and is assigned together with
    [updateScheduler]; its query is the parameter [isHidden]. *)
Record FoldingController := {
  editor : Editor;
  _isEnabled : bool;
  foldingModel : option FoldingModel;
  foldingModelPromise : option TPromise;
  updateScheduler : option Delayer;
  cursorChangedScheduler : option RunOnceScheduler;
  localToDispose : list Disposable;
  mouseDownInfo : option MouseDownInfo
}.

Definition set_mouseDownInfo (v : option MouseDownInfo) (this : FoldingController)
    : FoldingController :=
  {| editor := editor this; _isEnabled := _isEnabled this;
     foldingModel := foldingModel this;
     foldingModelPromise := foldingModelPromise this;
     updateScheduler := updateScheduler this;
     cursorChangedScheduler := cursorChangedScheduler this;
     localToDispose := localToDispose this;
     mouseDownInfo := v |}.

Definition set_localToDispose (v : list Disposable) (this : FoldingController)
    : FoldingController :=
  {| editor := editor this; _isEnabled := _isEnabled this;
     foldingModel := foldingModel this;
     foldingModelPromise := foldingModelPromise this;
     updateScheduler := updateScheduler this;
     cursorChangedScheduler := cursorChangedScheduler this;
     localToDispose := v;
     mouseDownInfo := mouseDownInfo this |}.

Definition set_foldingModelPromise (v : option TPromise) (this : FoldingController)
    : FoldingController :=
  {| editor := editor this; _isEnabled := _isEnabled this;
     foldingModel := foldingModel this;
     foldingModelPromise := v;
     updateScheduler := updateScheduler this;
     cursorChangedScheduler := cursorChangedScheduler this;
     localToDispose := localToDispose this;
     mouseDownInfo := mouseDownInfo this |}.

Definition set_foldingModel (v : option FoldingModel) (this : FoldingController)
    : FoldingController :=
  {| editor := editor this; _isEnabled := _isEnabled this;
     foldingModel := v;
     foldingModelPromise := foldingModelPromise this;
     updateScheduler := updateScheduler this;
     cursorChangedScheduler := cursorChangedScheduler this;
     localToDispose := localToDispose this;
     mouseDownInfo := mouseDownInfo this |}.

(** ** Methods: state passing with JavaScript's exceptions *)

Inductive JsError := TypeError.

Inductive Completion (A : Type) :=
| Normal (a : A)
| Throw (e : JsError).
Global Arguments Normal {A} a.
Global Arguments Throw {A} e.

Definition Method (A : Type) : Type :=
  FoldingController → Completion A * FoldingController.

Global Instance Method_ret : MRet Method := λ A a this, (Normal a, this).

Global Instance Method_bind : MBind Method := λ A B k m this,
  match m this with
  | (Normal a, this') => k a this'
  | (Throw e, this') => (Throw e, this')
  end.

Definition getThis : Method FoldingController := λ this, (Normal this, this).

Definition assign (f : FoldingController → FoldingController) : Method unit :=
  λ this, (Normal (), f this).

Definition throw {A} (e : JsError) : Method A := λ this, (Throw e, this).

(** Reading a property of [o]: a [TypeError] when [o] is null or undefined. *)
Definition deref {A} (o : option A) : Method A :=
  match o with Some a => mret a | None => throw TypeError end.

(** The callbacks the controller passes to [getFoldingModel().then]. *)
Inductive ThenCallback :=
| RestoreViewStateThen (collapsedIndexes : list Z)
| RevealCursorThen
| MouseUpThen (lineNumber : Z) (iconClicked : bool).

(** [this.getFoldingModel().then(callback)]: the callback is registered on
    the promise; reading [then] of an undefined promise throws. *)
Definition getFoldingModel_then (callback : ThenCallback) : Method (option ThenCallback) :=
  this ← getThis;
  _ ← deref (foldingModelPromise this);
  mret (Some callback).

(** ** View state *)

(** The [state: any] of [saveViewState] and [restoreViewState], an object.
    [collapsedIndexes] is [None] when the property is not an array, and
    [lineCount] is [None] when the property is not a number. *)
Record ViewState := {
  collapsedIndexes : option (list Z);
  lineCount : option Z
}.

(** The object [{}]. *)
Definition emptyObject : ViewState :=
  {| collapsedIndexes := None; lineCount := None |}.

(** [region.editorDecorationId] when it is truthy: a string that is not empty. *)
Definition truthyDecorationId (region : FoldingRegion) : option string :=
  match editorDecorationId region with
  | Some id => if bool_decide (id = EmptyString) then None else Some id
  | None => None
  end.

(** One turn of the loop of [saveViewState] (lines 109 to 114): what the
    region pushes on [collapsedIndexes]. *)
Definition savedIndexOf (model : TextModel) (region : FoldingRegion) : list Z :=
  if isCollapsed region then
    match truthyDecorationId region with
    | Some id =>
        match getDecorationRange model id with
        | Some range => [startLineNumber range]
        | None => []
        end
    | None => []
    end
  else [].

(** [saveViewState()], lines 102 to 117. *)
Definition saveViewState : Method ViewState :=
  this ← getThis;
  match getModel (editor this) with
  | None => mret emptyObject
  | Some model =>
      foldingModel ← deref (foldingModel this);
      let collapsedIndexes := regions foldingModel ≫= savedIndexOf model in
      mret {| collapsedIndexes := Some collapsedIndexes;
              lineCount := Some (getLineCount model) |}
  end.

(** The condition of line 130; [state] is [None] when it is falsy.  It
    yields the indexes to restore when the state is not turned down. *)
Definition acceptedIndexes (state : option ViewState) (model : TextModel)
    : option (list Z) :=
  match state with
  | None => None
  | Some state =>
      match collapsedIndexes state with
      | None => None
      | Some indexes =>
          if bool_decide (length indexes = 0%nat) then None
          else if bool_decide (lineCount state ≠ Some (getLineCount model)) then None
          else Some indexes
      end
  end.

(** [restoreViewState(state)], lines 122 to 143, up to the [then]. *)
Definition restoreViewState (state : option ViewState) : Method (option ThenCallback) :=
  this ← getThis;
  match getModel (editor this) with
  | None => mret None
  | Some model =>
      if negb (_isEnabled this) then mret None
      else
        match acceptedIndexes state model with
        | None => mret None
        | Some indexes => getFoldingModel_then (RestoreViewStateThen indexes)
        end
  end.

(** The region at a line, with the object behind the reference; a reference
    that denotes no region of the model counts as no region. *)
Definition regionAt `{Collaborators} (m : FoldingModel) (line : Z)
    : option (RegionRef * FoldingRegion) :=
  ref ← getRegionAtLine m line;
  region ← regionOf m ref;
  Some (ref, region).

(** The callback of [restoreViewState], lines 134 to 141. *)
Definition restoreViewState_then `{Collaborators} (indexes : list Z)
    (foldingModel : FoldingModel) : FoldingModel :=
  let toToogle :=
    indexes ≫= (λ index,
      match regionAt foldingModel index with
      | Some (ref, region) => if negb (isCollapsed region) then [ref] else []
      | None => []
      end) in
  toggleCollapseState toToogle foldingModel.

(** ** Model changes *)

(** [onModelContentChanged()], lines 189 to 194: the update is handed to the
    scheduler and its promise kept. *)
Definition onModelContentChanged : Method unit :=
  this ← getThis;
  scheduler ← deref (updateScheduler this);
  assign (set_foldingModelPromise (Some (TriggeredBy scheduler))).

(** [onModelChanged()], lines 145 to 172. *)
Definition onModelChanged : Method unit :=
  this ← getThis;
  assign (set_localToDispose (dispose (localToDispose this)));;
  match getModel (editor this) with
  | Some model =>
      if negb (_isEnabled this) then mret ()
      else
        assign (λ this,
          {| editor := editor this; _isEnabled := _isEnabled this;
             foldingModel := Some newFoldingModel;
             foldingModelPromise := foldingModelPromise this;
             updateScheduler := Some {| delayer_delay := 200 |};
             cursorChangedScheduler := Some {| scheduler_timeout := 200 |};
             localToDispose :=
               localToDispose this ++
               [TheFoldingModel; TheHiddenRangeModel; HiddenRangeListener;
                UpdateSchedulerCancel; TheCursorChangedScheduler;
                LanguageConfigurationListener; ModelContentListener;
                CursorPositionListener; MouseDownListener; MouseUpListener];
             mouseDownInfo := mouseDownInfo this |});;
        onModelContentChanged
  | None => mret ()
  end.

(** ** Candidate ranges *)

Definition MAX_FOLDING_REGIONS : nat := 5000.

(** [computeRanges()], lines 174 to 183. *)
Definition computeRanges `{Collaborators} (this : FoldingController)
    : list IndentFoldStrategy.IndentRange :=
  match getModel (editor this) with
  | Some editorModel =>
      let ranges := strategy_computeRanges editorModel in
      IndentFoldStrategy.sortByStartLine
        (IndentFoldStrategy.limitByIndent ranges MAX_FOLDING_REGIONS)
  | None => []
  end.

(** ** Revealing the cursor *)

(** [reveal(focusLine)], lines 309 to 311. *)
Definition reveal (focusLine : Z) : RevealRequest :=
  {| reveal_position := {| pos_lineNumber := focusLine; pos_column := 1 |};
     reveal_scroll := Smooth |}.

(** [revealCursor()], lines 210 to 221, up to the [then]. *)
Definition revealCursor : Method (option ThenCallback) :=
  getFoldingModel_then RevealCursorThen.

(** The filter of line 216. *)
Definition collapsedAbove (lineNumber : Z) (r : FoldingRegion) : bool :=
  isCollapsed r && bool_decide (lineNumber > startLineNumber (region_range r)).

(** One turn of the loop of the callback of [revealCursor], lines 214 to 218. *)
Definition revealSelection `{Collaborators} (foldingModel : FoldingModel)
    (selection : Selection) : FoldingModel :=
  let lineNumber := selectionStartLineNumber selection in
  if isHidden foldingModel lineNumber then
    let toToggle :=
      getAllRegionsAtLine foldingModel lineNumber (collapsedAbove lineNumber) in
    toggleCollapseState toToggle foldingModel
  else foldingModel.

(** The callback of [revealCursor], lines 212 to 219. *)
Definition revealCursor_then `{Collaborators} (this : FoldingController)
    (foldingModel : FoldingModel) : FoldingModel :=
  let selections := getSelections (editor this) in
  foldl revealSelection foldingModel selections.

(** ** The mouse gesture *)

Import EditorBrowser.

(** The [switch] of [onEditorMouseDown], lines 236 to 269: [None] where the
    source returns, [Some iconClicked] where it breaks out of the switch. *)
Definition mouseDownSwitch (e : IEditorMouseEvent) (range : Range)
    : Method (option bool) :=
  match type (target e) with
  | GUTTER_LINE_DECORATIONS =>
      let data := detail (target e) in
      let gutterOffsetX :=
        offsetX data - glyphMarginWidth data - lineNumbersWidth data in
      if bool_decide (gutterOffsetX ≤ 12) then mret None
      else mret (Some true)
  | CONTENT_EMPTY =>
      this ← getThis;
      model ← deref (getModel (editor this));
      if bool_decide (startColumn range = getLineMaxColumn model (startLineNumber range))
      then
        let editorCoords_top := domNodePagePosition_top (editor this) in
        let pos := getScrolledVisiblePosition (editor this) (getEndPosition range) in
        if bool_decide (posy (event e) > editorCoords_top + sp_top pos + sp_height pos)
        then mret None
        else mret (Some false)
      else mret None
  | CONTENT_TEXT =>
      this ← getThis;
      model ← deref (getModel (editor this));
      if bool_decide (startColumn range = getLineMaxColumn model (startLineNumber range))
      then mret (Some false)
      else mret None
  | OTHER_TARGET => mret None
  end.

(** [onEditorMouseDown(e)], lines 225 to 272. *)
Definition onEditorMouseDown (e : IEditorMouseEvent) : Method unit :=
  assign (set_mouseDownInfo None);;
  match range (target e) with
  | None => mret ()
  | Some range =>
      if negb (leftButton (event e)) then mret ()
      else
        decided ← mouseDownSwitch e range;
        match decided with
        | None => mret ()
        | Some iconClicked =>
            assign (set_mouseDownInfo
              (Some {| lineNumber := startLineNumber range;
                       iconClicked := iconClicked |}))
        end
  end.

(** The test of lines 286 to 295 of [onEditorMouseUp]: does the up-event
    match the kind of the recorded down-event? *)
Definition mouseUpMatches (e : IEditorMouseEvent) (range : Range)
    (lineNumber : Z) (iconClicked : bool) : Method bool :=
  if iconClicked then
    mret (is_gutter_line_decorations (type (target e)))
  else
    this ← getThis;
    model ← deref (getModel (editor this));
    mret (bool_decide (startColumn range = getLineMaxColumn model lineNumber)).

(** [onEditorMouseUp(e)], lines 274 to 307, up to the [then]. *)
Definition onEditorMouseUp (e : IEditorMouseEvent) : Method (option ThenCallback) :=
  this ← getThis;
  match mouseDownInfo this with
  | None => mret None
  | Some info =>
      let lineNumber := lineNumber info in
      let iconClicked := iconClicked info in
      match range (target e) with
      | None => mret None
      | Some range =>
          if bool_decide (startLineNumber range ≠ lineNumber) then mret None
          else
            mouseUpMatches e range lineNumber iconClicked ≫= λ matches : bool,
            if matches then getFoldingModel_then (MouseUpThen lineNumber iconClicked)
            else mret None
      end
  end.

(** The callback of [onEditorMouseUp], lines 298 to 305: the folding model
    it leaves and the reveals it asks of the editor. *)
Definition onEditorMouseUp_then `{Collaborators} (lineNumber : Z)
    (iconClicked : bool) (foldingModel : FoldingModel)
    : FoldingModel * list RevealRequest :=
  match regionAt foldingModel lineNumber with
  | Some (ref, region) =>
      if iconClicked || isCollapsed region then
        (toggleCollapseState [ref] foldingModel, [reveal lineNumber])
      else (foldingModel, [])
  | None => (foldingModel, [])
  end.

(** ** Running a registered callback *)

(** The promise resolves with the controller's folding model (line 192); the
    callback then runs on it.  The result is the list of reveals asked of the
    editor; the folding model is the shared object, so the controller sees
    its new state. *)
Definition runCallback `{Collaborators} (callback : ThenCallback)
    : Method (list RevealRequest) :=
  this ← getThis;
  model ← deref (foldingModel this);
  match callback with
  | RestoreViewStateThen indexes =>
      assign (set_foldingModel (Some (restoreViewState_then indexes model)));;
      mret (@nil RevealRequest)
  | RevealCursorThen =>
      assign (set_foldingModel (Some (revealCursor_then this model)));;
      mret (@nil RevealRequest)
  | MouseUpThen lineNumber iconClicked =>
      let result := onEditorMouseUp_then lineNumber iconClicked model in
      assign (set_foldingModel (Some result.1));;
      mret result.2
  end.

(** A method, then the callback it registered, if any. *)
Definition andThen `{Collaborators} (method : Method (option ThenCallback))
    : Method (list RevealRequest) :=
  registered ← method;
  match registered with
  | Some callback => runCallback callback
  | None => mret (@nil RevealRequest)
  end.

(** ** A reference folding model, for concrete runs

    One way to answer the queries that are parameters above: the regions at
    a line are those whose range holds the line, the region at a line is the
    last of them in the model's order (the innermost one when the regions are
    ordered by start line and nested), and a line is hidden when a collapsed
    region holds it below its start line (spec, 3: "a region contributes all
    lines strictly below its start line, up to and including its end
    line"). *)

Module Reference.

Definition holdsLine (line : Z) (r : FoldingRegion) : bool :=
  bool_decide (startLineNumber (region_range r) ≤ line)
  && bool_decide (line ≤ endLineNumber (region_range r)).

Definition regionsHolding (m : FoldingModel) (line : Z) : list RegionRef :=
  filter (λ ref, from_option (holdsLine line) false (regionOf m ref) = true)
         (seq 0 (length (regions m))).

Definition lastHolding (m : FoldingModel) (line : Z) : option RegionRef :=
  last (regionsHolding m line).

Definition hides (line : Z) (r : FoldingRegion) : bool :=
  isCollapsed r
  && bool_decide (startLineNumber (region_range r) < line)
  && bool_decide (line ≤ endLineNumber (region_range r)).

Definition hiddenByCollapsed (m : FoldingModel) (line : Z) : bool :=
  bool_decide (Exists (λ r, hides line r = true) (regions m)).

(** A range computation for the examples: one candidate per line of the
    buffer, from the last line up, the nesting levels going round 0, 1, 2. *)
Definition onePerLine (model : TextModel) : list IndentFoldStrategy.IndentRange :=
  (λ k : nat,
     {| IndentFoldStrategy.startLineNumber := getLineCount model - Z.of_nat k;
        IndentFoldStrategy.endLineNumber := getLineCount model - Z.of_nat k + 1;
        IndentFoldStrategy.nestingLevel := k `mod` 3 |})
  <$> seq 0 (Z.to_nat (getLineCount model)).

Definition collaborators : Collaborators :=
  {| getRegionAtLine := lastHolding;
     regionsAtLine := regionsHolding;
     isHidden := hiddenByCollapsed;
     strategy_computeRanges := onePerLine |}.

End Reference.

(** ** Predicates of the statements *)

(** The kind of up-event the recorded down-event asks for. *)
Definition upMatches (e : IEditorMouseEvent) (this : FoldingController)
    (info : MouseDownInfo) : Prop :=
  ∃ r, range (target e) = Some r
    ∧ startLineNumber r = lineNumber info
    ∧ (iconClicked info = true → type (target e) = GUTTER_LINE_DECORATIONS)
    ∧ (iconClicked info = false →
         ∃ model, getModel (editor this) = Some model
           ∧ startColumn r = getLineMaxColumn model (lineNumber info)).

(** An up-event that does not fit the recorded down-event. *)
Definition upMismatches (e : IEditorMouseEvent) (this : FoldingController)
    (info : MouseDownInfo) : Prop :=
  range (target e) = None
  ∨ (∃ r, range (target e) = Some r ∧ startLineNumber r ≠ lineNumber info)
  ∨ (iconClicked info = true ∧ type (target e) ≠ GUTTER_LINE_DECORATIONS)
  ∨ (∃ r model, iconClicked info = false
       ∧ range (target e) = Some r
       ∧ getModel (editor this) = Some model
       ∧ startColumn r ≠ getLineMaxColumn model (lineNumber info)).

(** A down-event that may record the gesture [info]: a left-button press
    with a target range, on the gutter's line decorations past the offset or
    at the end of a line of content. *)
Definition downQualifies (e : IEditorMouseEvent) (this : FoldingController)
    (info : MouseDownInfo) : Prop :=
  ∃ r, range (target e) = Some r
    ∧ lineNumber info = startLineNumber r
    ∧ leftButton (event e) = true
    ∧ ((type (target e) = GUTTER_LINE_DECORATIONS
        ∧ offsetX (detail (target e)) - glyphMarginWidth (detail (target e))
            - lineNumbersWidth (detail (target e)) > 12
        ∧ iconClicked info = true)
       ∨ ((type (target e) = CONTENT_EMPTY ∨ type (target e) = CONTENT_TEXT)
          ∧ (∃ model, getModel (editor this) = Some model
               ∧ startColumn r = getLineMaxColumn model (startLineNumber r))
          ∧ iconClicked info = false)).

(** A view state that [restoreViewState] has to turn down, for the model of
    the editor: absent; [collapsedIndexes] not an array; [collapsedIndexes]
    empty; [lineCount] other than the model's line count. *)
Definition unusableState (state : option ViewState) (model : option TextModel)
    : Prop :=
  state = None
  ∨ ∃ st, state = Some st
      ∧ (collapsedIndexes st = None
         ∨ collapsedIndexes st = Some []
         ∨ ∀ m, model = Some m → lineCount st ≠ Some (getLineCount m)).

(** The buffer was not edited since the regions were computed: the
    decoration of a region starts on the start line of the region. *)
Definition decorationsInPlace (model : TextModel) (m : FoldingModel) : Prop :=
  ∀ region id range,
    region ∈ regions m →
    truthyDecorationId region = Some id →
    getDecorationRange model id = Some range →
    startLineNumber range = startLineNumber (region_range region).

(** The folding model finds each of its regions at the start line of the
    region. *)
Definition findsRegionsAtStart `{Collaborators} (m : FoldingModel) : Prop :=
  ∀ ref region,
    regionOf m ref = Some region →
    getRegionAtLine m (startLineNumber (region_range region)) = Some ref.

(** From [m] to [m'] regions were only opened: each region of [m] is in
    [m'] as it was, or was collapsed and is now expanded. *)
Definition onlyOpened (m m' : FoldingModel) : Prop :=
  ∀ ref region,
    regionOf m ref = Some region →
    regionOf m' ref = Some region
    ∨ (isCollapsed region = true ∧ regionOf m' ref = Some (flipCollapsed region)).

(** Two folding models of the same regions: the same ranges in the same
    order, whatever is collapsed. *)
Definition sameRegions (m m' : FoldingModel) : Prop :=
  Forall2 (λ r r', region_range r = region_range r') (regions m) (regions m').

(** Does [saveViewState] record the region? *)
Definition isSaved (model : TextModel) (region : FoldingRegion) : bool :=
  bool_decide (savedIndexOf model region ≠ []).

(** ** Concrete data for the examples *)

Module Examples.

Import EditorBrowser.

(** A buffer of 30 lines of ten characters each; three decorations. *)
Definition lines (startLine endLine : Z) : Range :=
  {| startLineNumber := startLine; startColumn := 1;
     endLineNumber := endLine; endColumn := 11 |}.

Definition buffer : TextModel :=
  {| getLineCount := 30;
     getLineMaxColumn := λ _, 11;
     getDecorationRange := λ id,
       if bool_decide (id = "outer") then Some (lines 3 20)
       else if bool_decide (id = "inner") then Some (lines 5 8)
       else if bool_decide (id = "last") then Some (lines 22 25)
       else None |}.

Definition region (startLine endLine : Z) (collapsed : bool) (id : string)
    : FoldingRegion :=
  {| region_range := lines startLine endLine;
     isCollapsed := collapsed;
     editorDecorationId := Some id |}.

(** Three regions, the second one inside the first; only it is collapsed. *)
Definition model : FoldingModel :=
  {| regions := [region 3 20 false "outer"; region 5 8 true "inner";
                 region 22 25 false "last"] |}.

(** The same regions, the first two collapsed. *)
Definition nested : FoldingModel :=
  {| regions := [region 3 20 true "outer"; region 5 8 true "inner";
                 region 22 25 false "last"] |}.

(** The same regions, none collapsed. *)
Definition expanded : FoldingModel :=
  {| regions := [region 3 20 false "outer"; region 5 8 false "inner";
                 region 22 25 false "last"] |}.

Definition cursorAt (line : Z) : Selection :=
  {| selectionStartLineNumber := line; selectionStartColumn := 1;
     positionLineNumber := line; positionColumn := 1 |}.

Definition editorOn (textModel : option TextModel) (selections : list Selection)
    : Editor :=
  {| getModel := textModel;
     getSelections := selections;
     domNodePagePosition_top := 100;
     getScrolledVisiblePosition := λ p,
       {| sp_top := 18 * (pos_lineNumber p - 1); sp_left := 0; sp_height := 18 |} |}.

(** A controller attached to [buffer], with the folding model [m]. *)
Definition attached (m : FoldingModel) (selections : list Selection)
    (info : option MouseDownInfo) : FoldingController :=
  {| editor := editorOn (Some buffer) selections;
     _isEnabled := true;
     foldingModel := Some m;
     foldingModelPromise := Some (TriggeredBy {| delayer_delay := 200 |});
     updateScheduler := Some {| delayer_delay := 200 |};
     cursorChangedScheduler := Some {| scheduler_timeout := 200 |};
     localToDispose :=
       [TheFoldingModel; TheHiddenRangeModel; HiddenRangeListener;
        UpdateSchedulerCancel; TheCursorChangedScheduler;
        LanguageConfigurationListener; ModelContentListener;
        CursorPositionListener; MouseDownListener; MouseUpListener];
     mouseDownInfo := info |}.


(** A left-button event on the folding gutter of a line, 20 pixels in. *)
Definition gutterAt (line : Z) : IEditorMouseEvent :=
  {| event := {| leftButton := true; posy := 100 + 18 * (line - 1) + 5 |};
     target := {| type := GUTTER_LINE_DECORATIONS;
                  range := Some {| startLineNumber := line; startColumn := 1;
                                   endLineNumber := line; endColumn := 1 |};
                  detail := {| offsetX := 70; glyphMarginWidth := 20;
                               lineNumbersWidth := 30 |} |} |}.

(** An event past the last character of a line. *)
Definition endOfLineAt (left : bool) (line : Z) : IEditorMouseEvent :=
  {| event := {| leftButton := left; posy := 100 + 18 * (line - 1) + 5 |};
     target := {| type := CONTENT_EMPTY;
                  range := Some {| startLineNumber := line; startColumn := 11;
                                   endLineNumber := line; endColumn := 11 |};
                  detail := {| offsetX := 0; glyphMarginWidth := 0;
                               lineNumbersWidth := 0 |} |} |}.

(** An event with no target range. *)
Definition nowhere : IEditorMouseEvent :=
  {| event := {| leftButton := true; posy := 0 |};
     target := {| type := OTHER_TARGET; range := None;
                  detail := {| offsetX := 0; glyphMarginWidth := 0;
                               lineNumbersWidth := 0 |} |} |}.

(** A buffer of 6000 lines, for 6000 candidates of the reference range
    computation, and a controller attached to it. *)
Definition hugeBuffer : TextModel :=
  {| getLineCount := 6000;
     getLineMaxColumn := λ _, 11;
     getDecorationRange := λ _, None |}.

Definition onHugeBuffer : FoldingController :=
  {| editor := editorOn (Some hugeBuffer) [];
     _isEnabled := true;
     foldingModel := Some newFoldingModel;
     foldingModelPromise := Some (TriggeredBy {| delayer_delay := 200 |});
     updateScheduler := Some {| delayer_delay := 200 |};
     cursorChangedScheduler := Some {| scheduler_timeout := 200 |};
     localToDispose := [];
     mouseDownInfo := None |}.

End Examples.

(** * The rest of the file *)

From Stdlib Require Import Ascii DecimalString DecimalNat.

(** ** The controller object: construction and configuration *)

(** [editor.getConfiguration().contribInfo], the two options the controller
    reads. *)
Record ContribInfo := { folding : bool; showFoldingControls : string }.

(** [IConfigurationChangedEvent]: the flag the controller tests. *)
Record IConfigurationChangedEvent := { contribInfo : bool }.

(** What the constructor pushes on [globalToDispose], lines 70 to 87. *)
Inductive GlobalDisposable :=
| ModelChangeListener
| ConfigurationListener
| LocalDisposer.

(** The controller with the fields the first part leaves aside. *)
Record ControllerObject := {
  fields : FoldingController;
  _autoHideFoldingControls : bool;
  (** [foldingDecorationProvider.autoHideFoldingControls] *)
  provider_autoHideFoldingControls : bool;
  globalToDispose : list GlobalDisposable
}.

Definition set__isEnabled (v : bool) (this : FoldingController) : FoldingController :=
  {| editor := editor this; _isEnabled := v;
     foldingModel := foldingModel this;
     foldingModelPromise := foldingModelPromise this;
     updateScheduler := updateScheduler this;
     cursorChangedScheduler := cursorChangedScheduler this;
     localToDispose := localToDispose this;
     mouseDownInfo := mouseDownInfo this |}.

Definition ObjectMethod (A : Type) : Type :=
  ControllerObject → Completion A * ControllerObject.

Global Instance ObjectMethod_ret : MRet ObjectMethod := λ A a o, (Normal a, o).

Global Instance ObjectMethod_bind : MBind ObjectMethod := λ A B k m o,
  match m o with
  | (Normal a, o') => k a o'
  | (Throw e, o') => (Throw e, o')
  end.

(** A method of the first part, on the whole object. *)
Definition onFields {A} (m : Method A) : ObjectMethod A := λ o,
  let result := m (fields o) in
  (result.1,
   {| fields := result.2;
      _autoHideFoldingControls := _autoHideFoldingControls o;
      provider_autoHideFoldingControls := provider_autoHideFoldingControls o;
      globalToDispose := globalToDispose o |}).

Definition getObject : ObjectMethod ControllerObject := λ o, (Normal o, o).

Definition assignObject (f : ControllerObject → ControllerObject) : ObjectMethod unit :=
  λ o, (Normal (), f o).

Definition set__autoHideFoldingControls (v : bool) (o : ControllerObject)
    : ControllerObject :=
  {| fields := fields o;
     _autoHideFoldingControls := v;
     provider_autoHideFoldingControls := provider_autoHideFoldingControls o;
     globalToDispose := globalToDispose o |}.

Definition set_provider_autoHideFoldingControls (v : bool) (o : ControllerObject)
    : ControllerObject :=
  {| fields := fields o;
     _autoHideFoldingControls := _autoHideFoldingControls o;
     provider_autoHideFoldingControls := v;
     globalToDispose := globalToDispose o |}.

(** [showFoldingControls === 'mouseover'] *)
Definition isMouseover (config : ContribInfo) : bool :=
  bool_decide (showFoldingControls config = "mouseover").

(** [new FoldingController(editor)], lines 59 to 89; [config] is what
    [editor.getConfiguration().contribInfo] holds at that time.  The fields
    not assigned by the constructor are undefined. *)
Definition newFoldingController (editor : Editor) (config : ContribInfo)
    : Completion unit * ControllerObject :=
  onFields onModelChanged
    {| fields :=
         {| editor := editor;
            _isEnabled := folding config;
            foldingModel := None;
            foldingModelPromise := None;
            updateScheduler := None;
            cursorChangedScheduler := None;
            localToDispose := [];
            mouseDownInfo := None |};
       _autoHideFoldingControls := isMouseover config;
       provider_autoHideFoldingControls := isMouseover config;
       globalToDispose :=
         [ModelChangeListener; ConfigurationListener; LocalDisposer] |}.

(** The listener of [onDidChangeConfiguration], lines 72 to 86; [config] is
    what [editor.getConfiguration().contribInfo] holds when it runs. *)
Definition onDidChangeConfiguration (e : IConfigurationChangedEvent)
    (config : ContribInfo) : ObjectMethod unit :=
  if contribInfo e then
    o ← getObject;
    let oldIsEnabled := _isEnabled (fields o) in
    onFields (assign (set__isEnabled (folding config)));;
    (if bool_decide (oldIsEnabled ≠ folding config)
     then onFields onModelChanged else mret ());;
    let oldShowFoldingControls := _autoHideFoldingControls o in
    assignObject (set__autoHideFoldingControls (isMouseover config));;
    if bool_decide (oldShowFoldingControls ≠ isMouseover config) then
      assignObject (set_provider_autoHideFoldingControls (isMouseover config));;
      onFields onModelContentChanged
    else mret ()
  else mret ().

(** [getFoldingModel()], lines 185 to 187. *)
Definition getFoldingModel (this : FoldingController) : option TPromise :=
  foldingModelPromise this.

(** ** Commands *)

(** [FoldingAction.runEditorCommand], lines 318 to 327.  [foldingController]
    is what [FoldingController.get(editor)] finds.  The record holds the
    number of telemetry reports and how the call completes: [Normal true]
    when [invoke] was registered on the promise of the folding model,
    [Normal false] when the command returned without it. *)
Record CommandRun := { telemetryReports : nat; completion : Completion bool }.

Definition runEditorCommand (foldingController : option FoldingController)
    : CommandRun :=
  match foldingController with
  | None => {| telemetryReports := 0; completion := Normal false |}
  | Some this =>
      {| telemetryReports := 1;
         completion :=
           match getFoldingModel this with
           | Some promise => Normal true
           | None => Throw TypeError
           end |}
  end.












(** ** Fold level actions *)












(** ** Sequences of events *)




(** A controller with a model attached: what [onModelChanged] builds is
    there. *)
Definition attachedController (this : FoldingController) : Prop :=
  is_Some (getModel (editor this))
  ∧ is_Some (foldingModel this)
  ∧ is_Some (foldingModelPromise this)
  ∧ is_Some (updateScheduler this).


(** Two folding models of the same regions with the same decorations: only
    what is collapsed may differ. *)
Definition sameShape (m m' : FoldingModel) : Prop :=
  Forall2 (λ r r', region_range r = region_range r'
                   ∧ editorDecorationId r = editorDecorationId r')
          (regions m) (regions m').

(** A mouse-down and the mouse-up after it. *)
Definition click (down up : EditorBrowser.IEditorMouseEvent)
    : Method (option ThenCallback) :=
  onEditorMouseDown down;; onEditorMouseUp up.

(** ** Predicates on the parameters *)

(** A line is hidden when a collapsed region holds it below its start line. *)
Definition hiddenWhenCollapsedAbove `{Collaborators} : Prop :=
  ∀ m line,
    isHidden m line = true ↔
    ∃ ref region, regionOf m ref = Some region ∧ Reference.hides line region = true.

(** The regions at a line include every region whose range holds the line. *)
Definition regionsAtLineComplete `{Collaborators} : Prop :=
  ∀ m line ref region,
    regionOf m ref = Some region →
    Reference.holdsLine line region = true →
    ref ∈ regionsAtLine m line.

(** The region found at a line does not depend on what is collapsed. *)
Definition lookupIgnoresCollapse `{Collaborators} (m : FoldingModel) (line : Z)
    : Prop :=
  ∀ toToggle,
    getRegionAtLine (toggleCollapseState toToggle m) line = getRegionAtLine m line.

(** ** More concrete data *)

Module MoreExamples.


Definition foldingOn : ContribInfo :=
  {| folding := true; showFoldingControls := "mouseover" |}.

Definition foldingOff : ContribInfo :=
  {| folding := false; showFoldingControls := "mouseover" |}.

Definition alwaysShown : ContribInfo :=
  {| folding := false; showFoldingControls := "always" |}.

End MoreExamples.

(** * Properties *)

(** ** The monad's steps *)

Ltac run :=
  repeat (cbn [mbind mret Method_bind Method_ret getThis assign throw deref
               getFoldingModel_then fst snd];
          unfold mbind, mret, Method_bind, Method_ret, getThis, assign, throw,
                 deref, getFoldingModel_then).

(** ** Toggling *)

Lemma regionOf_toggle (toToggle : list RegionRef) (m : FoldingModel) (i : RegionRef) :
  regionOf (toggleCollapseState toToggle m) i =
  (λ r, if bool_decide (i ∈ toToggle) then flipCollapsed r else r) <$> regionOf m i.
Proof. unfold regionOf, toggleCollapseState; cbn. apply list_lookup_imap. Qed.

Lemma toggle_nothing (m : FoldingModel) : toggleCollapseState [] m = m.
Proof.
  destruct m as [rs]. unfold toggleCollapseState; cbn. f_equal.
  apply list_eq; intros i. rewrite list_lookup_imap.
  rewrite bool_decide_eq_false_2 by apply not_elem_of_nil.
  by destruct (rs !! i).
Qed.

Lemma toggle_length (toToggle : list RegionRef) (m : FoldingModel) :
  length (regions (toggleCollapseState toToggle m)) = length (regions m).
Proof. unfold toggleCollapseState; cbn. apply length_imap. Qed.

Lemma regionAt_Some `{Collaborators} (m : FoldingModel) (line : Z)
    (ref : RegionRef) (region : FoldingRegion) :
  regionAt m line = Some (ref, region) ↔
  getRegionAtLine m line = Some ref ∧ regionOf m ref = Some region.
Proof.
  unfold regionAt. destruct (getRegionAtLine m line) as [r|]; cbn.
  - destruct (regionOf m r) as [x|] eqn:E; cbn; split.
    + intros [= <- <-]. done.
    + intros [[= <-] ?]. rewrite E in *. by simplify_eq.
    + done.
    + intros [[= <-] ?]. congruence.
  - split; [done | intros [? _]; done].
Qed.

(** ** The mouse-up handler *)

Import EditorBrowser.

Lemma is_gutter_line_decorations_true (t : MouseTargetType) :
  is_gutter_line_decorations t = true ↔ t = GUTTER_LINE_DECORATIONS.
Proof. destruct t; cbn; split; congruence. Qed.

(** A mouse-up never assigns a field of the controller. *)
Lemma onEditorMouseUp_state (e : IEditorMouseEvent) (this : FoldingController) :
  (onEditorMouseUp e this).2 = this.
Proof.
  unfold onEditorMouseUp, mouseUpMatches. run.
  destruct (mouseDownInfo this) as [[L icon]|]; [|done]; cbn.
  destruct (range (target e)) as [r|]; [|done].
  case_bool_decide; [done|].
  destruct icon; run.
  - destruct (is_gutter_line_decorations _); [|done].
    by destruct (foldingModelPromise this).
  - destruct (getModel (editor this)); [|done]. run.
    case_bool_decide; [|done].
    by destruct (foldingModelPromise this).
Qed.

(** With no recorded gesture a mouse-up does nothing. *)
Lemma onEditorMouseUp_idle (e : IEditorMouseEvent) (this : FoldingController) :
  mouseDownInfo this = None → onEditorMouseUp e this = (Normal None, this).
Proof. intros E. unfold onEditorMouseUp. run. by rewrite E. Qed.

(** A registered callback is the one of the recorded gesture, and the
    up-event fits it. *)
Lemma onEditorMouseUp_accepted (e : IEditorMouseEvent)
    (this this' : FoldingController) (callback : ThenCallback) :
  onEditorMouseUp e this = (Normal (Some callback), this') →
  this' = this ∧
  ∃ info, mouseDownInfo this = Some info
    ∧ callback = MouseUpThen (lineNumber info) (iconClicked info)
    ∧ upMatches e this info.
Proof.
  intros E. split.
  { pose proof (onEditorMouseUp_state e this) as S. by rewrite E in S. }
  revert E. unfold onEditorMouseUp, mouseUpMatches, upMatches. run.
  destruct (mouseDownInfo this) as [[L icon]|]; [|done]; cbn.
  destruct (range (target e)) as [r|]; [|done].
  case_bool_decide as EL; [done|].
  destruct icon; run.
  - destruct (is_gutter_line_decorations _) eqn:G; [|done].
    apply is_gutter_line_decorations_true in G.
    destruct (foldingModelPromise this); [|done]. run.
    intros [= <- <-]. eexists; split; [done|]. split; [done|].
    exists r. repeat split; [done..|]. done.
  - destruct (getModel (editor this)) as [model|]; [|done]. run.
    case_bool_decide as EC; [|done].
    destruct (foldingModelPromise this); [|done]. run.
    intros [= <- <-]. eexists; split; [done|]. split; [done|].
    exists r. repeat split; [done..|]. intros _. by exists model.
Qed.

(** An up-event that does not fit registers nothing. *)
Lemma onEditorMouseUp_mismatch (e : IEditorMouseEvent) (this : FoldingController)
    (info : MouseDownInfo) :
  mouseDownInfo this = Some info →
  upMismatches e this info →
  onEditorMouseUp e this = (Normal None, this).
Proof.
  intros E M. unfold onEditorMouseUp, mouseUpMatches. run. rewrite E.
  destruct info as [L icon]; unfold upMismatches in M; cbn in *.
  destruct M as [M|[(r & M & N)|[[-> M]|(r & model & -> & M & N & O)]]].
  - by rewrite M.
  - rewrite M. by rewrite bool_decide_eq_true_2.
  - destruct (range (target e)); [|done]. case_bool_decide; [done|]. run.
    destruct (type (target e)); done.
  - rewrite M. case_bool_decide; [done|]. run. rewrite N. run.
    by rewrite bool_decide_eq_false_2.
Qed.

Lemma set_foldingModel_same (this : FoldingController) (m : FoldingModel) :
  foldingModel this = Some m → set_foldingModel (Some m) this = this.
Proof. destruct this; cbn. by intros ->. Qed.




(** C2, as the code has it.  After a recorded mouse-down at line L, a
    mouse-up registers the toggling callback only if its target range starts
    on line L and, for an icon click, its target type is the gutter's line
    decorations or, for another click, its start column is the maximal
    column of line L.  On a mismatch (no target range among them) the
    up-event registers nothing and assigns nothing: no collapse state
    changes, and the recorded gesture stays recorded. *)
Theorem mouse_up_accepts_only_matching `{Collaborators}
    (e : IEditorMouseEvent) (this : FoldingController) (info : MouseDownInfo) :
  mouseDownInfo this = Some info →
  (∀ callback this',
     onEditorMouseUp e this = (Normal (Some callback), this') →
     upMatches e this info)
  ∧ (upMismatches e this info →
       onEditorMouseUp e this = (Normal None, this)
       ∧ andThen (onEditorMouseUp e) this = (Normal [], this)).
Proof.
  intros Einfo. split.
  - intros callback this' Eup.
    apply onEditorMouseUp_accepted in Eup as (_ & info' & Einfo' & _ & M).
    rewrite Einfo in Einfo'. by injection Einfo' as <-.
  - intros M. pose proof (onEditorMouseUp_mismatch e this info Einfo M) as E.
    split; [done|]. unfold andThen. run. by rewrite E.
Qed.

Lemma mouse_up_accepts_only_matching_witness :
  andThen (H := Reference.collaborators)
    (onEditorMouseUp (Examples.gutterAt 6))
    (Examples.attached Examples.model []
       (Some {| lineNumber := 5; iconClicked := true |}))
  = (Normal [],
     Examples.attached Examples.model []
       (Some {| lineNumber := 5; iconClicked := true |})).
Proof.
  refine (proj2 (proj2 (mouse_up_accepts_only_matching
    (H := Reference.collaborators) (Examples.gutterAt 6)
    (Examples.attached Examples.model []
       (Some {| lineNumber := 5; iconClicked := true |}))
    {| lineNumber := 5; iconClicked := true |} eq_refl) _)).
  right; left. eexists. split; [reflexivity|]. cbn. lia.
Defined.

(** C2, as the spec has it, fails: a mouse-up on another line leaves the
    gesture recorded at line 5 pending, and a mouse-up after it, with no
    mouse-down in between, completes the gesture and expands the region. *)
Lemma mismatched_mouse_up_keeps_gesture :
  let info := {| lineNumber := 5; iconClicked := false |} in
  let this := Examples.attached Examples.model [] (Some info) in
  let after := (onEditorMouseUp (Examples.endOfLineAt true 6) this).2 in
  upMismatches (Examples.endOfLineAt true 6) this info
  ∧ mouseDownInfo after ≠ None
  ∧ andThen (H := Reference.collaborators)
      (onEditorMouseUp (Examples.endOfLineAt true 5)) after
    = (Normal [reveal 5], Examples.attached Examples.expanded [] (Some info)).
Proof.
  cbn zeta. split; [|split].
  - right; left. eexists. split; [reflexivity|]. cbn. lia.
  - rewrite onEditorMouseUp_state. done.
  - rewrite onEditorMouseUp_state. reflexivity.
Qed.

(** ** The mouse-down handler *)

(** What a mouse-down leaves behind, case by case. *)
Lemma onEditorMouseDown_recorded (e : IEditorMouseEvent)
    (this this' : FoldingController) (c : Completion unit) (info : MouseDownInfo) :
  onEditorMouseDown e this = (c, this') →
  mouseDownInfo this' = Some info →
  downQualifies e this info.
Proof.
  unfold onEditorMouseDown, mouseDownSwitch, downQualifies. run.
  destruct (range (target e)) as [r|]; [|by intros [= <- <-]].
  destruct (leftButton (event e)); cbn; [|by intros [= <- <-]].
  destruct (type (target e)) eqn:T; run; cbn.
  - case_bool_decide as G; run; [by intros [= <- <-]|].
    intros [= <- <-]; cbn. intros [= <-]. exists r. split; [done|]. split; [done|].
    split; [done|]. left. split; [done|]. split; [lia|done].
  - destruct (getModel (editor this)) as [model|]; run; cbn;
      [|by intros [= <- <-]].
    case_bool_decide as C; run; [|by intros [= <- <-]].
    intros [= <- <-]; cbn. intros [= <-]. exists r. split; [done|]. split; [done|].
    split; [done|]. right. split; [by right|]. split; [by exists model|done].
  - destruct (getModel (editor this)) as [model|]; run; cbn;
      [|by intros [= <- <-]].
    case_bool_decide as C; run; [|by intros [= <- <-]].
    case_bool_decide as Y; run; [by intros [= <- <-]|].
    intros [= <- <-]; cbn. intros [= <-]. exists r. split; [done|]. split; [done|].
    split; [done|]. right. split; [by left|]. split; [by exists model|done].
  - by intros [= <- <-].
Qed.

(** A mouse-down starts from a cleared gesture state, whatever was recorded. *)
Lemma onEditorMouseDown_clears_first (e : IEditorMouseEvent) (this : FoldingController) :
  onEditorMouseDown e this = onEditorMouseDown e (set_mouseDownInfo None this).
Proof.
  unfold onEditorMouseDown, mouseDownSwitch. run.
  destruct (range (target e)) as [r|]; [|done].
  destruct (leftButton (event e)); cbn; [|done].
  destruct (type (target e)); run; cbn.
  - by case_bool_decide.
  - destruct (getModel (editor this)); run; [|done]. by case_bool_decide.
  - destruct (getModel (editor this)); run; [|done].
    case_bool_decide; [|done]. by case_bool_decide.
  - done.
Qed.

(** C3. A mouse-down records a gesture only if the event has a target range
    and either hits the gutter's line decorations more than 12 pixels past
    the glyph margin and the line numbers, and then iconClicked is true, or
    hits empty content or text at the maximal column of the target line, and
    then iconClicked is false; the recorded line is the start line of the
    target range.  Any other mouse-down leaves no gesture recorded. *)
Theorem mouse_down_records_only_icon_or_end_of_line (e : IEditorMouseEvent)
    (this this' : FoldingController) (c : Completion unit) :
  onEditorMouseDown e this = (c, this') →
  (∀ info, mouseDownInfo this' = Some info →
     ∃ r, range (target e) = Some r
       ∧ lineNumber info = startLineNumber r
       ∧ ((type (target e) = GUTTER_LINE_DECORATIONS
           ∧ offsetX (detail (target e)) - glyphMarginWidth (detail (target e))
               - lineNumbersWidth (detail (target e)) > 12
           ∧ iconClicked info = true)
          ∨ ((type (target e) = CONTENT_EMPTY ∨ type (target e) = CONTENT_TEXT)
             ∧ (∃ model, getModel (editor this) = Some model
                  ∧ startColumn r = getLineMaxColumn model (startLineNumber r))
             ∧ iconClicked info = false)))
  ∧ ((∀ info, ¬ downQualifies e this info) → mouseDownInfo this' = None).
Proof.
  intros E. split.
  - intros info I.
    destruct (onEditorMouseDown_recorded e this this' c info E I)
      as (r & R & L & _ & D).
    exists r. split; [done|]. by split.
  - intros N. destruct (mouseDownInfo this') as [info|] eqn:I; [|done].
    destruct (N info). by eapply onEditorMouseDown_recorded.
Qed.

Lemma mouse_down_records_only_icon_or_end_of_line_witness :
  ∃ r, range (target (Examples.gutterAt 5)) = Some r
     ∧ 5 = startLineNumber r
     ∧ ((type (target (Examples.gutterAt 5)) = GUTTER_LINE_DECORATIONS
         ∧ 70 - 20 - 30 > 12 ∧ true = true)
        ∨ ((type (target (Examples.gutterAt 5)) = CONTENT_EMPTY
            ∨ type (target (Examples.gutterAt 5)) = CONTENT_TEXT)
           ∧ (∃ model,
                getModel (editor (Examples.attached Examples.model [] None))
                  = Some model
                ∧ startColumn r = getLineMaxColumn model (startLineNumber r))
           ∧ true = false)).
Proof.
  exact (proj1 (mouse_down_records_only_icon_or_end_of_line
    (Examples.gutterAt 5)
    (Examples.attached Examples.model [] None)
    (Examples.attached Examples.model []
       (Some {| lineNumber := 5; iconClicked := true |}))
    (Normal ()) eq_refl)
    {| lineNumber := 5; iconClicked := true |} eq_refl).
Defined.

(** C8, as the code has it.  Every mouse-down clears the recorded gesture
    first, whether it qualifies or not: what it leaves recorded is nothing or
    a gesture of this very event, and does not depend on what was recorded
    before.  A mouse-up assigns nothing, so a recorded gesture stays alive
    from its mouse-down until the next mouse-down. *)
Theorem gesture_cleared_by_mouse_down_only (e : IEditorMouseEvent)
    (this : FoldingController) :
  onEditorMouseDown e this = onEditorMouseDown e (set_mouseDownInfo None this)
  ∧ (mouseDownInfo (onEditorMouseDown e this).2 = None
     ∨ ∃ info, mouseDownInfo (onEditorMouseDown e this).2 = Some info
         ∧ downQualifies e this info)
  ∧ (onEditorMouseUp e this).2 = this.
Proof.
  split; [apply onEditorMouseDown_clears_first|]. split.
  - destruct (mouseDownInfo (onEditorMouseDown e this).2) as [info|] eqn:I;
      [right|by left].
    exists info. split; [done|].
    eapply onEditorMouseDown_recorded; [|exact I]. apply surjective_pairing.
  - apply onEditorMouseUp_state.
Qed.

(** C8, as the spec has it, fails: after a mouse-down on the icon of line 5
    and the mouse-up that completes it, the gesture is still recorded, and a
    second mouse-up, with no mouse-down before it, toggles the region
    again. *)
Lemma gesture_survives_mouse_up :
  let idle := Examples.attached Examples.model [] None in
  let down := (onEditorMouseDown (Examples.gutterAt 5) idle).2 in
  let up := (andThen (H := Reference.collaborators)
               (onEditorMouseUp (Examples.gutterAt 5)) down).2 in
  mouseDownInfo down = Some {| lineNumber := 5; iconClicked := true |}
  ∧ foldingModel up = Some Examples.expanded
  ∧ mouseDownInfo up ≠ None
  ∧ andThen (H := Reference.collaborators)
      (onEditorMouseUp (Examples.gutterAt 5)) up
    = (Normal [reveal 5],
       Examples.attached Examples.model []
         (Some {| lineNumber := 5; iconClicked := true |})).
Proof. cbn zeta. repeat split; done. Qed.

(** C10. A mouse-down that is not a left-button press, or whose target has
    no range, returns with no gesture recorded; the mouse-up after it
    registers no callback, so no collapse state changes. *)
Theorem mouse_down_without_left_button_or_range `{Collaborators}
    (e : IEditorMouseEvent) (this : FoldingController) :
  leftButton (event e) = false ∨ range (target e) = None →
  onEditorMouseDown e this = (Normal (), set_mouseDownInfo None this)
  ∧ mouseDownInfo (onEditorMouseDown e this).2 = None
  ∧ ∀ e', onEditorMouseUp e' (onEditorMouseDown e this).2
            = (Normal None, set_mouseDownInfo None this)
        ∧ andThen (onEditorMouseUp e') (onEditorMouseDown e this).2
            = (Normal [], set_mouseDownInfo None this).
Proof.
  intros Hno.
  assert (onEditorMouseDown e this = (Normal (), set_mouseDownInfo None this)) as E.
  { unfold onEditorMouseDown. run.
    destruct (range (target e)) as [r|]; [|done].
    destruct Hno as [-> | ?]; done. }
  rewrite E. cbn. split; [done|]. split; [done|].
  intros e'.
  assert (onEditorMouseUp e' (set_mouseDownInfo None this)
          = (Normal None, set_mouseDownInfo None this)) as U
    by by apply onEditorMouseUp_idle.
  split; [done|]. unfold andThen. run. by rewrite U.
Qed.

Lemma mouse_down_without_left_button_or_range_witness :
  andThen (H := Reference.collaborators)
    (onEditorMouseUp (Examples.endOfLineAt true 5))
    (onEditorMouseDown (Examples.endOfLineAt false 5)
       (Examples.attached Examples.model [] None)).2
  = (Normal [],
     set_mouseDownInfo None (Examples.attached Examples.model [] None)).
Proof.
  exact (proj2 (proj2 (proj2 (mouse_down_without_left_button_or_range
    (H := Reference.collaborators) (Examples.endOfLineAt false 5)
    (Examples.attached Examples.model [] None) (or_introl eq_refl)))
    (Examples.endOfLineAt true 5))).
Defined.

(** ** View state *)

(** A state that line 130 turns down. *)
Lemma acceptedIndexes_None (state : option ViewState) (model : TextModel) :
  unusableState state (Some model) → acceptedIndexes state model = None.
Proof.
  unfold unusableState, acceptedIndexes.
  intros [-> | (st & -> & [E | [E | E]])]; [done|rewrite E..|]; [done|done|].
  destruct (collapsedIndexes st) as [indexes|]; [|done].
  case_bool_decide; [done|]. rewrite bool_decide_eq_true_2; [done|]. by apply E.
Qed.

(** C4. [restoreViewState(state)] returns normally, registers no callback
    and assigns nothing, so no collapse state changes, when the state is
    absent, its collapsedIndexes is not an array or is empty, or its
    lineCount is not the line count of the editor's model. *)
Theorem restore_turns_down_unusable_state `{Collaborators}
    (state : option ViewState) (this : FoldingController) :
  unusableState state (getModel (editor this)) →
  restoreViewState state this = (Normal None, this)
  ∧ andThen (restoreViewState state) this = (Normal [], this).
Proof.
  intros U.
  assert (restoreViewState state this = (Normal None, this)) as E.
  { unfold restoreViewState. run.
    destruct (getModel (editor this)) as [model|]; [|done].
    destruct (_isEnabled this); cbn; [|done].
    by rewrite (acceptedIndexes_None _ _ U). }
  split; [done|]. unfold andThen. run. by rewrite E.
Qed.

Lemma restore_turns_down_unusable_state_witness :
  andThen (H := Reference.collaborators)
    (restoreViewState
       (Some {| collapsedIndexes := Some [5]; lineCount := Some 29 |}))
    (Examples.attached Examples.expanded [] None)
  = (Normal [], Examples.attached Examples.expanded [] None).
Proof.
  refine (proj2 (restore_turns_down_unusable_state
    (H := Reference.collaborators)
    (Some {| collapsedIndexes := Some [5]; lineCount := Some 29 |})
    (Examples.attached Examples.expanded [] None) _)).
  right. eexists. split; [reflexivity|]. right; right.
  intros model [= <-]. cbn. intros [=].
Defined.



(** What [saveViewState] records: an index is saved for a collapsed region
    with a decoration in the buffer. *)
Lemma saved_index_of_collapsed (model : TextModel) (m : FoldingModel) (index : Z) :
  index ∈ (regions m ≫= savedIndexOf model) →
  ∃ region id range,
    region ∈ regions m
    ∧ isCollapsed region = true
    ∧ truthyDecorationId region = Some id
    ∧ getDecorationRange model id = Some range
    ∧ index = startLineNumber range.
Proof.
  rewrite list_elem_of_bind. intros (region & I & R).
  unfold savedIndexOf in I.
  destruct (isCollapsed region) eqn:C; [|by apply elem_of_nil in I].
  destruct (truthyDecorationId region) as [id|] eqn:D; [|by apply elem_of_nil in I].
  destruct (getDecorationRange model id) as [range|] eqn:G;
    [|by apply elem_of_nil in I].
  apply list_elem_of_singleton in I. by exists region, id, range.
Qed.

(** On an unedited buffer a saved index is the start line of a collapsed
    region, which the model finds there. *)
Lemma saved_index_found `{Collaborators} (model : TextModel) (m : FoldingModel)
    (index : Z) :
  decorationsInPlace model m →
  findsRegionsAtStart m →
  index ∈ (regions m ≫= savedIndexOf model) →
  ∃ ref region, regionAt m index = Some (ref, region) ∧ isCollapsed region = true.
Proof.
  intros P F I.
  apply saved_index_of_collapsed in I as (region & id & range & R & C & D & G & ->).
  rewrite (P region id range R D G).
  apply list_elem_of_lookup in R as [ref R].
  exists ref, region. split; [|done].
  apply regionAt_Some. split; [by apply F|done].
Qed.

Lemma restore_saved_indexes `{Collaborators} (model : TextModel) (m : FoldingModel) :
  decorationsInPlace model m →
  findsRegionsAtStart m →
  restoreViewState_then (regions m ≫= savedIndexOf model) m = m.
Proof.
  intros P F. unfold restoreViewState_then.
  transitivity (toggleCollapseState [] m); [|apply toggle_nothing]. f_equal.
  apply elem_of_nil_inv. intros ref.
  rewrite list_elem_of_bind. intros (index & I & S).
  destruct (saved_index_found model m index P F S) as (ref' & region & E & C).
  rewrite E, C in I. cbn in I. by apply elem_of_nil in I.
Qed.

(** ** Candidate ranges *)

Section limitByIndent.
Import IndentFoldStrategy.
Variable ranges : list IndentRange.
Variable maxEntries : nat.

Lemma countBelow_0 : countBelow ranges 0 = 0%nat.
Proof.
  unfold countBelow. induction ranges as [|r l IH]; [done|].
  rewrite filter_cons_False; [done|lia].
Qed.

(** The cut never lets in more than [maxEntries] candidates. *)
Lemma nestingCut_fits (fuel level : nat) :
  (countBelow ranges level ≤ maxEntries)%nat →
  (countBelow ranges (nestingCut ranges maxEntries fuel level) ≤ maxEntries)%nat.
Proof.
  revert level. induction fuel as [|fuel IH]; intros level Hfit; cbn; [done|].
  case_decide; [by apply IH|done].
Qed.

Lemma limitByIndent_length :
  (length (limitByIndent ranges maxEntries) ≤ maxEntries)%nat.
Proof.
  unfold limitByIndent. case_decide; [done|].
  apply (nestingCut_fits (S (deepestLevel ranges)) 0). rewrite countBelow_0. lia.
Qed.

Lemma limitByIndent_subseteq : limitByIndent ranges maxEntries ⊆ ranges.
Proof.
  unfold limitByIndent. case_decide; [done|].
  intros r. rewrite list_elem_of_filter. by intros [_ ?].
Qed.

Lemma nestingLevel_le_deepest (r : IndentRange) :
  r ∈ ranges → (nestingLevel r ≤ deepestLevel ranges)%nat.
Proof.
  induction ranges as [|x l IH]; intros I.
  - by apply elem_of_nil in I.
  - cbn [deepestLevel foldr]. fold (deepestLevel l).
    apply elem_of_cons in I as [-> | I]; [lia|]. specialize (IH I). lia.
Qed.

Lemma filter_all (P : IndentRange → Prop) `{∀ r, Decision (P r)}
    (l : list IndentRange) :
  (∀ r, r ∈ l → P r) → filter P l = l.
Proof.
  induction l as [|x k IH]; [done|]. intros Hall.
  rewrite filter_cons_True by (apply Hall; by left).
  f_equal. apply IH. intros r I. apply Hall. by right.
Qed.

Lemma countBelow_deepest : countBelow ranges (S (deepestLevel ranges)) = length ranges.
Proof.
  unfold countBelow. rewrite filter_all; [done|].
  intros r I. apply nestingLevel_le_deepest in I. lia.
Qed.

(** Where the cut stops: one more level does not fit, or the fuel is used up. *)
Lemma nestingCut_stops (fuel level : nat) :
  (maxEntries < countBelow ranges (S (nestingCut ranges maxEntries fuel level)))%nat
  ∨ nestingCut ranges maxEntries fuel level = (level + fuel)%nat.
Proof.
  revert level. induction fuel as [|fuel IH]; intros level; cbn; [right; lia|].
  case_decide; [|left; lia].
  destruct (IH (S level)) as [? | ->]; [by left|right; lia].
Qed.

Lemma countBelow_mono (a b : nat) :
  (a ≤ b)%nat → (countBelow ranges a ≤ countBelow ranges b)%nat.
Proof.
  intros Hab. unfold countBelow. induction ranges as [|r l IH]; [done|].
  destruct (decide (nestingLevel r < a)%nat).
  - rewrite !filter_cons_True by lia. cbn. lia.
  - rewrite (filter_cons_False (λ x, (nestingLevel x < a)%nat)) by done.
    destruct (decide (nestingLevel r < b)%nat).
    + rewrite filter_cons_True by done. cbn. lia.
    + by rewrite filter_cons_False by done.
Qed.

(** When candidates are dropped, the next nesting level would not fit. *)
Lemma limitByIndent_maximal :
  (maxEntries < length ranges)%nat →
  ∃ cut,
    limitByIndent ranges maxEntries = filter (λ r, (nestingLevel r < cut)%nat) ranges
    ∧ (maxEntries < countBelow ranges (S cut))%nat.
Proof.
  intros Hlen. unfold limitByIndent. rewrite decide_False by lia.
  exists (nestingCut ranges maxEntries (S (deepestLevel ranges)) 0).
  split; [done|].
  destruct (nestingCut_stops (S (deepestLevel ranges)) 0) as [?|E]; [done|].
  rewrite E. cbn.
  pose proof (countBelow_mono (S (deepestLevel ranges)) (S (S (deepestLevel ranges)))).
  rewrite countBelow_deepest in *. lia.
Qed.

(** Shallower candidates go first: with a kept candidate, every candidate
    nested no deeper is kept. *)
Lemma limitByIndent_shallower (r1 r2 : IndentRange) :
  r1 ∈ limitByIndent ranges maxEntries →
  r2 ∈ ranges →
  (nestingLevel r2 ≤ nestingLevel r1)%nat →
  r2 ∈ limitByIndent ranges maxEntries.
Proof.
  unfold limitByIndent. case_decide; [done|].
  rewrite !list_elem_of_filter. intros [L1 _] I2 L. split; [lia|done].
Qed.

End limitByIndent.

Global Instance byStartLine_total : Total IndentFoldStrategy.byStartLine.
Proof. intros r1 r2. unfold IndentFoldStrategy.byStartLine. lia. Qed.

Global Instance byStartLine_transitive : Transitive IndentFoldStrategy.byStartLine.
Proof. intros r1 r2 r3. unfold IndentFoldStrategy.byStartLine. lia. Qed.

Lemma sortByStartLine_sorted (ranges : list IndentFoldStrategy.IndentRange) :
  StronglySorted IndentFoldStrategy.byStartLine
    (IndentFoldStrategy.sortByStartLine ranges).
Proof. apply StronglySorted_merge_sort; apply _. Qed.

Lemma sortByStartLine_perm (ranges : list IndentFoldStrategy.IndentRange) :
  IndentFoldStrategy.sortByStartLine ranges ≡ₚ ranges.
Proof. apply merge_sort_Permutation. Qed.

(** C6. [computeRanges] returns at most 5000 candidates (so at most 5000 of
    6000), in ascending order of start line; they are candidates of the
    range computation, and with a candidate every candidate nested no deeper
    is among them. *)
Theorem computeRanges_capped_and_sorted `{Collaborators} (this : FoldingController) :
  (length (computeRanges this) ≤ 5000)%nat
  ∧ StronglySorted
      (λ r1 r2, IndentFoldStrategy.startLineNumber r1
                ≤ IndentFoldStrategy.startLineNumber r2)
      (computeRanges this)
  ∧ ∀ model, getModel (editor this) = Some model →
      computeRanges this ⊆ strategy_computeRanges model
      ∧ ((length (strategy_computeRanges model) ≤ 5000)%nat →
           computeRanges this ≡ₚ strategy_computeRanges model)
      ∧ ∀ r1 r2,
          r1 ∈ computeRanges this →
          r2 ∈ strategy_computeRanges model →
          (IndentFoldStrategy.nestingLevel r2
             ≤ IndentFoldStrategy.nestingLevel r1)%nat →
          r2 ∈ computeRanges this.
Proof.
  unfold computeRanges.
  destruct (getModel (editor this)) as [model|]; cbn.
  - split; [|split].
    + rewrite sortByStartLine_perm. apply limitByIndent_length.
    + apply sortByStartLine_sorted.
    + intros ? [= <-]. split; [|split].
      * rewrite sortByStartLine_perm. apply limitByIndent_subseteq.
      * intros Hlen. rewrite sortByStartLine_perm.
        unfold IndentFoldStrategy.limitByIndent, MAX_FOLDING_REGIONS.
        by rewrite decide_True.
      * intros r1 r2. rewrite !sortByStartLine_perm.
        apply limitByIndent_shallower.
  - split; [lia|]. split; [constructor|]. done.
Qed.

(** 6000 candidates of three nesting levels, 2000 each: the two shallowest
    levels fit in 5000, and 4000 candidates remain. *)
Example six_thousand_candidates :
  length (strategy_computeRanges (Collaborators := Reference.collaborators)
            Examples.hugeBuffer) = Z.to_nat 6000
  ∧ length (computeRanges (H := Reference.collaborators) Examples.onHugeBuffer)
    = Z.to_nat 4000.
Proof. split; vm_compute; reflexivity. Qed.

(** ** Revealing the cursor *)

Lemma elem_of_getAllRegionsAtLine `{Collaborators} (m : FoldingModel) (line : Z)
    (predicate : FoldingRegion → bool) (ref : RegionRef) :
  ref ∈ getAllRegionsAtLine m line predicate ↔
  ref ∈ regionsAtLine m line
  ∧ ∃ region, regionOf m ref = Some region ∧ predicate region = true.
Proof.
  unfold getAllRegionsAtLine. rewrite list_elem_of_filter.
  destruct (regionOf m ref) as [region|]; cbn.
  - split; [intros [? ?]; eauto|]. intros [? (r & [= <-] & ?)]. done.
  - split; [intros [? ?]; done|]. intros [_ (r & ? & _)]. done.
Qed.

(** On a hidden line the regions at the line that are collapsed and start
    above it are flipped, and no other. *)
Lemma revealSelection_hidden `{Collaborators} (m : FoldingModel)
    (selection : Selection) (ref : RegionRef) (region : FoldingRegion) :
  isHidden m (selectionStartLineNumber selection) = true →
  regionOf m ref = Some region →
  regionOf (revealSelection m selection) ref =
  Some (if bool_decide (ref ∈ regionsAtLine m (selectionStartLineNumber selection))
           && collapsedAbove (selectionStartLineNumber selection) region
        then flipCollapsed region else region).
Proof.
  intros Hh Hr. unfold revealSelection. rewrite Hh, regionOf_toggle, Hr. cbn.
  set (L := selectionStartLineNumber selection).
  rewrite (bool_decide_ext _
             (ref ∈ regionsAtLine m L ∧ collapsedAbove L region = true)).
  - rewrite bool_decide_and. by destruct (collapsedAbove L region).
  - rewrite elem_of_getAllRegionsAtLine. split.
    + intros [? (r & Er & ?)]. rewrite Hr in Er. by injection Er as <-.
    + intros [? ?]. eauto.
Qed.

Lemma revealSelection_visible `{Collaborators} (m : FoldingModel)
    (selection : Selection) :
  isHidden m (selectionStartLineNumber selection) = false →
  revealSelection m selection = m.
Proof. intros Hh. unfold revealSelection. by rewrite Hh. Qed.

Lemma onlyOpened_refl (m : FoldingModel) : onlyOpened m m.
Proof. intros ref region ?. by left. Qed.

Lemma onlyOpened_trans (m1 m2 m3 : FoldingModel) :
  onlyOpened m1 m2 → onlyOpened m2 m3 → onlyOpened m1 m3.
Proof.
  intros H12 H23 ref region R1.
  destruct (H12 ref region R1) as [R2 | [C R2]].
  - apply (H23 ref region R2).
  - destruct (H23 ref _ R2) as [R3 | [C' _]]; [by right|].
    cbn in C'. rewrite C in C'. done.
Qed.

Lemma revealSelection_onlyOpened `{Collaborators} (m : FoldingModel)
    (selection : Selection) :
  onlyOpened m (revealSelection m selection).
Proof.
  destruct (isHidden m (selectionStartLineNumber selection)) eqn:Hh.
  - intros ref region R. rewrite (revealSelection_hidden _ _ _ _ Hh R).
    destruct (bool_decide _); cbn; [|by left].
    destruct (collapsedAbove _ region) eqn:C; [|by left].
    right. split; [|done]. unfold collapsedAbove in C.
    by apply andb_true_iff in C as [? _].
  - rewrite revealSelection_visible by done. apply onlyOpened_refl.
Qed.

Lemma revealSelections_onlyOpened `{Collaborators} (selections : list Selection)
    (m : FoldingModel) :
  onlyOpened m (foldl revealSelection m selections).
Proof.
  revert m. induction selections as [|s l IH]; intros m; cbn.
  - apply onlyOpened_refl.
  - eapply onlyOpened_trans; [apply revealSelection_onlyOpened|apply IH].
Qed.

Lemma revealSelections_visible `{Collaborators} (selections : list Selection)
    (m : FoldingModel) :
  Forall (λ s, isHidden m (selectionStartLineNumber s) = false) selections →
  foldl revealSelection m selections = m.
Proof.
  induction 1 as [|s l Hs _ IH]; cbn; [done|].
  by rewrite revealSelection_visible.
Qed.

(** C7. The callback of [revealCursor], run on the folding model, goes
    through the editor's selections in turn.  For a selection whose start
    line L is hidden it flips, of the regions at L, exactly those that are
    collapsed and start above L, all of them, and these become expanded; for
    a selection whose start line is not hidden it changes nothing.  Over the
    whole run regions are only opened, and with no selection on a hidden
    line the model is left as it was. *)
Theorem reveal_cursor_opens_regions_above `{Collaborators}
    (later : FoldingController) (m : FoldingModel) :
  foldingModel later = Some m →
  runCallback RevealCursorThen later =
    (Normal [],
     set_foldingModel
       (Some (foldl revealSelection m (getSelections (editor later)))) later)
  ∧ (∀ current selection,
       let L := selectionStartLineNumber selection in
       (isHidden current L = true →
          ∀ ref region,
            regionOf current ref = Some region →
            regionOf (revealSelection current selection) ref =
              Some (if bool_decide (ref ∈ regionsAtLine current L)
                       && isCollapsed region
                       && bool_decide (startLineNumber (region_range region) < L)
                    then {| region_range := region_range region;
                            isCollapsed := false;
                            editorDecorationId := editorDecorationId region |}
                    else region))
       ∧ (isHidden current L = false →
            revealSelection current selection = current))
  ∧ onlyOpened m (foldl revealSelection m (getSelections (editor later)))
  ∧ (Forall (λ s, isHidden m (selectionStartLineNumber s) = false)
            (getSelections (editor later)) →
       runCallback RevealCursorThen later = (Normal [], later)).
Proof.
  intros Em.
  assert (runCallback RevealCursorThen later =
    (Normal [],
     set_foldingModel
       (Some (foldl revealSelection m (getSelections (editor later)))) later))
    as E.
  { unfold runCallback. run. rewrite Em. by run. }
  split; [done|]. split; [|split].
  - intros current selection L. split.
    + intros Hh ref region R. rewrite (revealSelection_hidden _ _ _ _ Hh R).
      f_equal. unfold collapsedAbove. fold L.
      destruct (bool_decide (ref ∈ regionsAtLine current L)); cbn; [|done].
      destruct (isCollapsed region) eqn:C; cbn; [|done].
      rewrite (bool_decide_ext (L > startLineNumber (region_range region))
                 (startLineNumber (region_range region) < L)) by lia.
      case_bool_decide; [|done]. unfold flipCollapsed. by rewrite C.
    + apply revealSelection_visible.
  - apply revealSelections_onlyOpened.
  - intros V. rewrite E, revealSelections_visible by done.
    by rewrite set_foldingModel_same.
Qed.

Lemma reveal_cursor_opens_regions_above_witness :
  runCallback (H := Reference.collaborators) RevealCursorThen
    (Examples.attached Examples.nested [Examples.cursorAt 6] None)
  = (Normal [],
     Examples.attached Examples.expanded [Examples.cursorAt 6] None).
Proof.
  exact (proj1 (reveal_cursor_opens_regions_above
    (H := Reference.collaborators)
    (Examples.attached Examples.nested [Examples.cursorAt 6] None)
    Examples.nested eq_refl)).
Defined.

(** ** Restoring a snapshot on the same regions *)

Lemma isSaved_true (model : TextModel) (region : FoldingRegion) :
  isSaved model region = true ↔
  isCollapsed region = true
  ∧ ∃ id range, truthyDecorationId region = Some id
      ∧ getDecorationRange model id = Some range
      ∧ savedIndexOf model region = [startLineNumber range].
Proof.
  unfold isSaved, savedIndexOf. rewrite bool_decide_eq_true.
  destruct (isCollapsed region); [|split; [done|by intros [? _]]].
  destruct (truthyDecorationId region) as [id|];
    [|split; [done|by intros [_ (? & ? & ? & _)]]].
  destruct (getDecorationRange model id) as [range|] eqn:G.
  - split; [|done]. intros _. split; [done|]. by exists id, range.
  - split; [done|]. intros [_ (? & ? & [= <-] & ? & _)]. congruence.
Qed.

(** The regions the callback of [restoreViewState] toggles, when the
    snapshot of [m] is restored on the same regions [m']. *)
Lemma restore_toggles `{Collaborators} (model : TextModel) (m m' : FoldingModel)
    (ref : RegionRef) (r r' : FoldingRegion) :
  sameRegions m m' →
  decorationsInPlace model m →
  findsRegionsAtStart m' →
  regionOf m ref = Some r →
  regionOf m' ref = Some r' →
  ref ∈ ((regions m ≫= savedIndexOf model) ≫= (λ index,
           match regionAt m' index with
           | Some (ref, region) => if negb (isCollapsed region) then [ref] else []
           | None => []
           end))
  ↔ isCollapsed r' = false ∧ isSaved model r = true.
Proof.
  intros S P F R R'. rewrite list_elem_of_bind. split.
  - intros (index & I & X).
    apply saved_index_of_collapsed in X as (rj & id & range & Ij & C & D & G & ->).
    rewrite (P rj id range Ij D G) in I.
    apply list_elem_of_lookup in Ij as [j Rj].
    destruct (Forall2_lookup_l _ _ _ j rj S Rj) as (rj' & Rj' & Erange).
    assert (regionAt m' (startLineNumber (region_range rj)) = Some (j, rj')) as A.
    { apply regionAt_Some. split; [|done]. rewrite Erange. by apply F. }
    rewrite A in I. destruct (isCollapsed rj') eqn:C'; cbn in I;
      [by apply elem_of_nil in I|].
    apply list_elem_of_singleton in I as ->.
    assert (r = rj) as <- by (apply (inj Some); exact (eq_trans (eq_sym R) Rj)).
    assert (r' = rj') as <- by (apply (inj Some); exact (eq_trans (eq_sym R') Rj')).
    split; [done|].
    apply isSaved_true. split; [done|]. exists id, range.
    split; [done|]. split; [done|]. unfold savedIndexOf. by rewrite C, D, G.
  - intros [C' Sv]. apply isSaved_true in Sv as (C & id & range & D & G & E).
    assert (r ∈ regions m) as Ir by by eapply list_elem_of_lookup_2.
    exists (startLineNumber (region_range r)). split.
    + destruct (Forall2_lookup_l _ _ _ ref r S R) as (r'' & R'' & Erange).
      assert (r' = r'') as <- by (apply (inj Some); exact (eq_trans (eq_sym R') R'')).
      assert (regionAt m' (startLineNumber (region_range r)) = Some (ref, r')) as A.
      { apply regionAt_Some. split; [|done]. rewrite Erange. by apply F. }
      rewrite A, C'. cbn. by apply list_elem_of_singleton.
    + apply list_elem_of_bind. exists r. split; [|done].
      rewrite E, (P r id range Ir D G). by apply list_elem_of_singleton.
Qed.

(** Restoring the snapshot of [m] on a model of the same regions collapses
    the expanded regions that were saved as collapsed, and changes no other:
    on the same regions with none collapsed it brings back the collapsed
    regions that were saved. *)
Lemma restore_on_same_regions `{Collaborators} (model : TextModel)
    (m m' : FoldingModel) (ref : RegionRef) (r r' : FoldingRegion) :
  sameRegions m m' →
  decorationsInPlace model m →
  findsRegionsAtStart m' →
  regionOf m ref = Some r →
  regionOf m' ref = Some r' →
  collapsedAt (restoreViewState_then (regions m ≫= savedIndexOf model) m') ref
  = Some (isCollapsed r' || isSaved model r).
Proof.
  intros S P F R R'. unfold collapsedAt, restoreViewState_then.
  rewrite regionOf_toggle, R'. cbn. f_equal.
  pose proof (restore_toggles model m m' ref r r' S P F R R') as T.
  case_bool_decide as I.
  - apply T in I as [C' Sv]. cbn. by rewrite C', Sv.
  - destruct (isCollapsed r') eqn:C'; [done|].
    destruct (isSaved model r) eqn:Sv; [|done]. destruct I. by apply T.
Qed.

Lemma examples_decorationsInPlace :
  decorationsInPlace Examples.buffer Examples.nested.
Proof.
  intros region id range R.
  repeat (apply elem_of_cons in R as [-> | R]); [..|by apply elem_of_nil in R];
    cbn; intros [= <-]; cbn; by intros [= <-].
Qed.

Lemma examples_findsRegionsAtStart :
  findsRegionsAtStart (H := Reference.collaborators) Examples.nested.
Proof.
  intros [|[|[|ref]]] region; cbn; intros [= <-]; reflexivity.
Qed.

(** C5. On a buffer that was not edited since the regions were computed,
    [saveViewState] followed by [restoreViewState] of the snapshot it
    returned, and by the callback that registers, leaves the controller and
    its folding model as they were: the collapsed regions are the same as
    before the save.  Every index of the snapshot is the line of a region
    that is collapsed.  Run on a folding model of the same regions, the
    callback collapses the regions the snapshot recorded and leaves every
    other region as it is. *)
Theorem save_then_restore_keeps_collapsed `{Collaborators}
    (this : FoldingController) (model : TextModel) (m : FoldingModel)
    (promise : TPromise) :
  getModel (editor this) = Some model →
  foldingModel this = Some m →
  foldingModelPromise this = Some promise →
  decorationsInPlace model m →
  findsRegionsAtStart m →
  ∃ indexes,
    saveViewState this =
      (Normal {| collapsedIndexes := Some indexes;
                 lineCount := Some (getLineCount model) |}, this)
    ∧ andThen
        (restoreViewState
           (Some {| collapsedIndexes := Some indexes;
                    lineCount := Some (getLineCount model) |})) this
      = (Normal [], this)
    ∧ (∀ index, index ∈ indexes →
         ∃ ref region,
           regionAt m index = Some (ref, region) ∧ isCollapsed region = true)
    ∧ ∀ m' ref r r',
        sameRegions m m' →
        findsRegionsAtStart m' →
        regionOf m ref = Some r →
        regionOf m' ref = Some r' →
        collapsedAt (restoreViewState_then indexes m') ref
        = Some (isCollapsed r' || isSaved model r).
Proof.
  intros Emodel Em Ep P F.
  exists (regions m ≫= savedIndexOf model). split; [|split; [|split]].
  - unfold saveViewState. run. rewrite Emodel, Em. by run.
  - unfold andThen, restoreViewState. run. rewrite Emodel.
    destruct (_isEnabled this); cbn; [|done].
    case_bool_decide; [done|].
    rewrite bool_decide_eq_false_2 by (intros N; by apply N).
    run. rewrite Ep. run. unfold runCallback. run. rewrite Em. run.
    pose proof (restore_saved_indexes model m P F) as R. unfold mbind in R.
    rewrite R. by rewrite set_foldingModel_same.
  - intros index. by apply saved_index_found.
  - intros m' ref r r' S F' R R'. by apply restore_on_same_regions.
Qed.

Lemma save_then_restore_keeps_collapsed_witness :
  ∃ indexes,
    saveViewState (Examples.attached Examples.nested [] None) =
      (Normal {| collapsedIndexes := Some indexes; lineCount := Some 30 |},
       Examples.attached Examples.nested [] None)
    ∧ andThen (H := Reference.collaborators)
        (restoreViewState
           (Some {| collapsedIndexes := Some indexes; lineCount := Some 30 |}))
        (Examples.attached Examples.nested [] None)
      = (Normal [], Examples.attached Examples.nested [] None).
Proof.
  destruct (save_then_restore_keeps_collapsed (H := Reference.collaborators)
    (Examples.attached Examples.nested [] None) Examples.buffer Examples.nested
    (TriggeredBy {| delayer_delay := 200 |}) eq_refl eq_refl eq_refl
    examples_decorationsInPlace examples_findsRegionsAtStart)
    as (indexes & Esave & Erestore & _).
  exists indexes. exact (conj Esave Erestore).
Defined.

(** The snapshot of the example, and its restoration on the same regions
    with none collapsed. *)
Example save_example :
  saveViewState (Examples.attached Examples.nested [] None)
  = (Normal {| collapsedIndexes := Some [3; 5]; lineCount := Some 30 |},
     Examples.attached Examples.nested [] None).
Proof. reflexivity. Qed.

Example restore_example :
  andThen (H := Reference.collaborators)
    (restoreViewState
       (Some {| collapsedIndexes := Some [3; 5]; lineCount := Some 30 |}))
    (Examples.attached Examples.expanded [] None)
  = (Normal [], Examples.attached Examples.nested [] None).
Proof. reflexivity. Qed.

(** ** Attaching a model *)

(** With a model and folding enabled, [onModelChanged] builds the folding
    model, both schedulers and the ten disposables, and leaves the promise of
    the first update: the state the callbacks above start from. *)
Lemma onModelChanged_attached (this : FoldingController) (model : TextModel) :
  getModel (editor this) = Some model →
  _isEnabled this = true →
  ∃ this',
    onModelChanged this = (Normal (), this')
    ∧ foldingModel this' = Some newFoldingModel
    ∧ foldingModelPromise this' = Some (TriggeredBy {| delayer_delay := 200 |})
    ∧ length (localToDispose this') = 10%nat
    ∧ mouseDownInfo this' = mouseDownInfo this.
Proof.
  intros Em En. unfold onModelChanged, onModelContentChanged. run. cbn.
  rewrite Em, En. cbn. run. cbn. eexists. split; [reflexivity|]. done.
Qed.

(** ** Registering the callbacks *)

(** [revealCursor] registers its callback on the promise of the folding
    model and assigns nothing. *)
Lemma revealCursor_registers (this : FoldingController) (promise : TPromise) :
  foldingModelPromise this = Some promise →
  revealCursor this = (Normal (Some RevealCursorThen), this).
Proof. intros E. unfold revealCursor. run. rewrite E. by run. Qed.

(** A mouse-up that fits the recorded gesture registers the callback of the
    gesture. *)
Lemma onEditorMouseUp_registers (e : IEditorMouseEvent) (this : FoldingController)
    (info : MouseDownInfo) (promise : TPromise) :
  mouseDownInfo this = Some info →
  foldingModelPromise this = Some promise →
  upMatches e this info →
  onEditorMouseUp e this
  = (Normal (Some (MouseUpThen (lineNumber info) (iconClicked info))), this).
Proof.
  intros Ei Ep (r & Er & El & Hicon & Hcol).
  unfold onEditorMouseUp, mouseUpMatches. run. rewrite Ei, Er.
  rewrite bool_decide_eq_false_2 by (intros N; by apply N).
  destruct (iconClicked info) eqn:I; run.
  - rewrite (Hicon eq_refl). cbn. rewrite Ep. by run.
  - destruct (Hcol eq_refl) as (model & -> & Ec). run.
    rewrite bool_decide_eq_true_2 by done. rewrite Ep. by run.
Qed.

(** With no region at the line the callback of a mouse-up changes nothing. *)
Lemma onEditorMouseUp_then_no_region `{Collaborators} (line : Z) (icon : bool)
    (m : FoldingModel) :
  regionAt m line = None → onEditorMouseUp_then line icon m = (m, []).
Proof. intros E. unfold onEditorMouseUp_then. by rewrite E. Qed.

(** * Properties of the rest of the file *)

(** ** Model changes *)

Lemma onModelChanged_result (this : FoldingController) :
  onModelChanged this =
  (Normal (),
   match getModel (editor this) with
   | Some model =>
       if _isEnabled this then
         {| editor := editor this; _isEnabled := _isEnabled this;
            foldingModel := Some newFoldingModel;
            foldingModelPromise := Some (TriggeredBy {| delayer_delay := 200 |});
            updateScheduler := Some {| delayer_delay := 200 |};
            cursorChangedScheduler := Some {| scheduler_timeout := 200 |};
            localToDispose :=
              [TheFoldingModel; TheHiddenRangeModel; HiddenRangeListener;
               UpdateSchedulerCancel; TheCursorChangedScheduler;
               LanguageConfigurationListener; ModelContentListener;
               CursorPositionListener; MouseDownListener; MouseUpListener];
            mouseDownInfo := mouseDownInfo this |}
       else set_localToDispose [] this
   | None => set_localToDispose [] this
   end).
Proof.
  unfold onModelChanged, onModelContentChanged. run. cbn.
  destruct (getModel (editor this)); [|done].
  destruct (_isEnabled this) eqn:E; cbn; [|done]. run. cbn. by rewrite E.
Qed.

(** [onModelChanged] never throws, and a second run right after it changes
    nothing.  Whatever [localToDispose] held, it holds nothing afterwards
    when there is no model or folding is disabled (the folding model and the
    promise then stay as they were), and otherwise the ten disposables of a
    new attachment, with a folding model of no region.  The recorded mouse
    gesture is carried over. *)
Theorem onModelChanged_rebuilds (this : FoldingController) :
  ∃ this',
    onModelChanged this = (Normal (), this')
    ∧ onModelChanged this' = (Normal (), this')
    ∧ mouseDownInfo this' = mouseDownInfo this
    ∧ editor this' = editor this
    ∧ ((is_Some (getModel (editor this)) ∧ _isEnabled this = true
        ∧ foldingModel this' = Some newFoldingModel
        ∧ is_Some (foldingModelPromise this')
        ∧ length (localToDispose this') = 10%nat)
       ∨ ((getModel (editor this) = None ∨ _isEnabled this = false)
          ∧ localToDispose this' = []
          ∧ foldingModel this' = foldingModel this
          ∧ foldingModelPromise this' = foldingModelPromise this)).
Proof.
  eexists. split; [apply onModelChanged_result|].
  destruct (getModel (editor this)) as [model|] eqn:Em.
  - destruct (_isEnabled this) eqn:En.
    + split. { rewrite onModelChanged_result. cbn. by rewrite Em. }
      cbn. split; [done|]. split; [done|]. left. by eauto 10.
    + split. { rewrite onModelChanged_result. cbn. by rewrite Em, En. }
      cbn. split; [done|]. split; [done|]. right. by eauto.
  - split. { rewrite onModelChanged_result. cbn. by rewrite Em. }
    cbn. split; [done|]. split; [done|]. right. by eauto.
Qed.

(** ** Sequences of events *)










(** ** What the events leave of the folding model *)

Lemma sameShape_refl (m : FoldingModel) : sameShape m m.
Proof. unfold sameShape. apply Forall_Forall2_diag, Forall_forall. done. Qed.

Lemma sameShape_trans (m1 m2 m3 : FoldingModel) :
  sameShape m1 m2 → sameShape m2 m3 → sameShape m1 m3.
Proof.
  unfold sameShape. intros H12 H23.
  eapply Forall2_trans; [|exact H12|exact H23].
  intros r1 r2 r3 [-> ->] [-> ->]. done.
Qed.

Lemma toggle_sameShape (toToggle : list RegionRef) (m : FoldingModel) :
  sameShape m (toggleCollapseState toToggle m).
Proof.
  unfold sameShape. apply Forall2_same_length_lookup. split.
  - by rewrite toggle_length.
  - intros i r r' R R'.
    pose proof (regionOf_toggle toToggle m i) as T. unfold regionOf in T.
    assert (Some r' = (λ r0, if bool_decide (i ∈ toToggle)
                             then flipCollapsed r0 else r0) <$> Some r) as E.
    { etrans; [symmetry; exact R'|]. etrans; [exact T|]. f_equal. exact R. }
    cbn in E. injection E as ->. by destruct (bool_decide _).
Qed.

Lemma revealSelections_sameShape `{Collaborators} (selections : list Selection)
    (m : FoldingModel) :
  sameShape m (foldl revealSelection m selections).
Proof.
  revert m. induction selections as [|s l IH]; intros m; cbn.
  - apply sameShape_refl.
  - eapply sameShape_trans; [|apply IH]. unfold revealSelection.
    destruct (isHidden m _); [apply toggle_sameShape|apply sameShape_refl].
Qed.








(** ** Restoring never expands *)

Lemma restore_toggles_expanded `{Collaborators} (indexes : list Z)
    (m : FoldingModel) (ref : RegionRef) :
  ref ∈ (indexes ≫= (λ index,
           match regionAt m index with
           | Some (ref, region) => if negb (isCollapsed region) then [ref] else []
           | None => []
           end))
  ↔ ∃ index region,
      index ∈ indexes ∧ regionAt m index = Some (ref, region)
      ∧ isCollapsed region = false.
Proof.
  rewrite list_elem_of_bind. split.
  - intros (index & I & Hin). exists index.
    destruct (regionAt m index) as [[ref' region]|]; [|by apply elem_of_nil in I].
    destruct (isCollapsed region) eqn:C; cbn in I; [by apply elem_of_nil in I|].
    apply list_elem_of_singleton in I as ->. by exists region.
  - intros (index & region & Hin & E & C). exists index. split; [|done].
    rewrite E, C. cbn. by apply list_elem_of_singleton.
Qed.

Lemma restore_leaves_or_collapses `{Collaborators} (indexes : list Z)
    (m : FoldingModel) (ref : RegionRef) (region : FoldingRegion) :
  regionOf m ref = Some region →
  regionOf (restoreViewState_then indexes m) ref = Some region
  ∨ (isCollapsed region = false
     ∧ regionOf (restoreViewState_then indexes m) ref = Some (flipCollapsed region)).
Proof.
  intros R. unfold restoreViewState_then. rewrite regionOf_toggle, R. cbn.
  case_bool_decide as I; [|by left]. right. split; [|done].
  apply restore_toggles_expanded in I as (index & region' & _ & E & C).
  apply regionAt_Some in E as [_ E]. congruence.
Qed.

Lemma restore_collapses_found `{Collaborators} (indexes : list Z)
    (m : FoldingModel) (index : Z) (ref : RegionRef) (region : FoldingRegion) :
  index ∈ indexes →
  regionAt m index = Some (ref, region) →
  regionOf (restoreViewState_then indexes m) ref
  = Some (if isCollapsed region then region else flipCollapsed region).
Proof.
  intros Hin E. unfold restoreViewState_then.
  rewrite regionOf_toggle. pose proof E as [_ R]%regionAt_Some. rewrite R. cbn.
  f_equal. destruct (isCollapsed region) eqn:C.
  - rewrite bool_decide_eq_false_2; [done|].
    intros (index' & region' & _ & E' & C')%restore_toggles_expanded.
    apply regionAt_Some in E' as [_ E']. congruence.
  - rewrite bool_decide_eq_true_2; [done|].
    apply restore_toggles_expanded. by exists index, region.
Qed.

(** The callback of [restoreViewState] only collapses: a region of the model
    is left as it is or was expanded and is collapsed afterwards, and never
    the other way round; and the region the model has at an index of the
    snapshot is collapsed afterwards, whether it was before or not.  When
    the regions found at the indexes do not depend on what is collapsed,
    restoring the same snapshot a second time changes nothing. *)
Theorem restore_only_collapses `{Collaborators} (indexes : list Z) (m : FoldingModel) :
  (∀ ref region,
     regionOf m ref = Some region →
     regionOf (restoreViewState_then indexes m) ref = Some region
     ∨ (isCollapsed region = false
        ∧ regionOf (restoreViewState_then indexes m) ref
          = Some (flipCollapsed region)))
  ∧ (∀ index ref region,
       index ∈ indexes →
       regionAt m index = Some (ref, region) →
       collapsedAt (restoreViewState_then indexes m) ref = Some true)
  ∧ ((∀ index, index ∈ indexes → lookupIgnoresCollapse m index) →
       restoreViewState_then indexes (restoreViewState_then indexes m)
       = restoreViewState_then indexes m).
Proof.
  split; [|split].
  - intros ref region. apply restore_leaves_or_collapses.
  - intros index ref region Hin E. unfold collapsedAt.
    rewrite (restore_collapses_found indexes m index ref region Hin E). cbn.
    destruct (isCollapsed region) eqn:C; cbn; by rewrite C.
  - intros Hl. set (m' := restoreViewState_then indexes m).
    unfold restoreViewState_then at 1.
    transitivity (toggleCollapseState [] m'); [|apply toggle_nothing]. f_equal.
    apply elem_of_nil_inv. intros ref.
    intros (index & region' & Hin & E' & C')%restore_toggles_expanded.
    apply regionAt_Some in E' as [G' R'].
    unfold m', restoreViewState_then in G'. rewrite (Hl index Hin) in G'.
    destruct (regionOf m ref) as [region|] eqn:R.
    + assert (regionAt m index = Some (ref, region)) as E
        by by apply regionAt_Some.
      unfold m' in R'.
      rewrite (restore_collapses_found indexes m index ref region Hin E) in R'.
      injection R' as <-.
      destruct (isCollapsed region) eqn:C; cbn in C'; rewrite ?C in C'; done.
    + unfold m', restoreViewState_then in R'. rewrite regionOf_toggle, R in R'. done.
Qed.

(** ** Revealing the cursor reveals it *)

Lemma hides_holdsLine (line : Z) (r : FoldingRegion) :
  Reference.hides line r = true →
  Reference.holdsLine line r = true ∧ collapsedAbove line r = true.
Proof.
  unfold Reference.hides, Reference.holdsLine, collapsedAbove.
  rewrite !andb_true_iff, !bool_decide_eq_true. intros [[? ?] ?].
  repeat split; [lia|done|done|lia].
Qed.

Lemma revealSelection_reveals `{Collaborators} (m : FoldingModel)
    (selection : Selection) :
  hiddenWhenCollapsedAbove →
  regionsAtLineComplete →
  isHidden (revealSelection m selection) (selectionStartLineNumber selection) = false.
Proof.
  intros HB HA. set (L := selectionStartLineNumber selection).
  destruct (isHidden m L) eqn:Hh; [|by rewrite revealSelection_visible].
  destruct (isHidden (revealSelection m selection) L) eqn:Hh'; [|done].
  apply HB in Hh' as (ref & region' & R' & Hd).
  destruct (regionOf m ref) as [r|] eqn:R.
  - rewrite (revealSelection_hidden m selection ref r Hh R) in R'.
    injection R' as <-. fold L in Hd.
    destruct (bool_decide (ref ∈ regionsAtLine m L)) eqn:I; cbn in Hd.
    + destruct (collapsedAbove L r) eqn:C.
      * unfold Reference.hides in Hd. cbn in Hd.
        unfold collapsedAbove in C. apply andb_true_iff in C as [Cr _].
        by rewrite Cr in Hd.
      * apply hides_holdsLine in Hd as [_ ?]. congruence.
    + apply hides_holdsLine in Hd as [Hl _].
      apply bool_decide_eq_false in I. destruct I. by eapply HA.
  - unfold revealSelection in R'. fold L in R'.
    rewrite Hh, regionOf_toggle, R in R'. done.
Qed.

Lemma onlyOpened_keeps_visible `{Collaborators} (m m' : FoldingModel) (line : Z) :
  hiddenWhenCollapsedAbove →
  sameShape m m' →
  onlyOpened m m' →
  isHidden m line = false →
  isHidden m' line = false.
Proof.
  intros HB S O Hv. destruct (isHidden m' line) eqn:Hh'; [|done].
  apply HB in Hh' as (ref & region' & R' & Hd).
  destruct (Forall2_lookup_r _ _ _ ref region' S R') as (r & R & _).
  assert (isHidden m line = true) as Hh; [|congruence].
  apply HB. exists ref, r. split; [done|].
  destruct (O ref r R) as [R2 | [C R2]].
  - assert (Some region' = Some r) as [= ->]
      by exact (eq_trans (eq_sym R') R2). done.
  - assert (Some region' = Some (flipCollapsed r)) as [= ->]
      by exact (eq_trans (eq_sym R') R2).
    unfold Reference.hides in Hd. cbn in Hd. by rewrite C in Hd.
Qed.

Lemma revealSelections_reveal `{Collaborators} (selections : list Selection)
    (m : FoldingModel) :
  hiddenWhenCollapsedAbove →
  regionsAtLineComplete →
  Forall (λ s, isHidden (foldl revealSelection m selections)
                 (selectionStartLineNumber s) = false) selections.
Proof.
  intros HB HA. revert m.
  induction selections as [|s l IH]; intros m; cbn; constructor; [|apply IH].
  apply (onlyOpened_keeps_visible (revealSelection m s)); [done|..].
  - apply revealSelections_sameShape.
  - apply revealSelections_onlyOpened.
  - by apply revealSelection_reveals.
Qed.

(** When a line is hidden exactly if a collapsed region holds it below its
    start line, and the regions at a line include every region that holds
    it, the callback of [revealCursor] leaves no selection with a hidden
    start line, however the selections are nested in collapsed regions; run
    again on its result it changes nothing. *)
Theorem reveal_cursor_leaves_no_selection_hidden `{Collaborators}
    (this : FoldingController) (m : FoldingModel) :
  hiddenWhenCollapsedAbove →
  regionsAtLineComplete →
  Forall (λ s, isHidden (revealCursor_then this m)
                 (selectionStartLineNumber s) = false)
         (getSelections (editor this))
  ∧ revealCursor_then this (revealCursor_then this m) = revealCursor_then this m.
Proof.
  intros HB HA. unfold revealCursor_then.
  pose proof (revealSelections_reveal (getSelections (editor this)) m HB HA) as V.
  split; [done|]. by apply revealSelections_visible.
Qed.

Lemma reference_hiddenWhenCollapsedAbove :
  hiddenWhenCollapsedAbove (H := Reference.collaborators).
Proof.
  intros m line. cbn. unfold Reference.hiddenByCollapsed.
  rewrite bool_decide_eq_true, Exists_exists. split.
  - intros (region & I & Hd). apply list_elem_of_lookup in I as [ref R].
    by exists ref, region.
  - intros (ref & region & R & Hd). exists region. split; [|done].
    by eapply list_elem_of_lookup_2.
Qed.

Lemma reference_regionsAtLineComplete :
  regionsAtLineComplete (H := Reference.collaborators).
Proof.
  intros m line ref region R Hl. cbn. unfold Reference.regionsHolding.
  apply list_elem_of_filter. split; [by rewrite R|].
  apply elem_of_seq. apply lookup_lt_Some in R. lia.
Qed.

Lemma reveal_cursor_leaves_no_selection_hidden_witness :
  Forall (λ s, isHidden (Collaborators := Reference.collaborators)
                 (revealCursor_then (H := Reference.collaborators)
                    (Examples.attached Examples.nested
                       [Examples.cursorAt 6; Examples.cursorAt 23] None)
                    Examples.nested)
                 (selectionStartLineNumber s) = false)
         [Examples.cursorAt 6; Examples.cursorAt 23].
Proof.
  exact (proj1 (reveal_cursor_leaves_no_selection_hidden
    (H := Reference.collaborators)
    (Examples.attached Examples.nested
       [Examples.cursorAt 6; Examples.cursorAt 23] None)
    Examples.nested reference_hiddenWhenCollapsedAbove
    reference_regionsAtLineComplete)).
Defined.

(** ** Clicking twice *)

Lemma flipCollapsed_involutive (r : FoldingRegion) :
  flipCollapsed (flipCollapsed r) = r.
Proof. destruct r as [? c ?]. unfold flipCollapsed; cbn. by rewrite negb_involutive. Qed.

Lemma toggle_involutive (toToggle : list RegionRef) (m : FoldingModel) :
  toggleCollapseState toToggle (toggleCollapseState toToggle m) = m.
Proof.
  destruct m as [rs]. unfold toggleCollapseState; cbn. f_equal.
  apply list_eq; intros i. rewrite !list_lookup_imap.
  destruct (rs !! i) as [r|]; [|done]. cbn. f_equal.
  destruct (bool_decide _); [apply flipCollapsed_involutive|done].
Qed.

Lemma regionAt_toggle `{Collaborators} (m : FoldingModel) (line : Z)
    (toToggle : list RegionRef) (ref : RegionRef) (region : FoldingRegion) :
  lookupIgnoresCollapse m line →
  regionAt m line = Some (ref, region) →
  regionAt (toggleCollapseState toToggle m) line =
  Some (ref, if bool_decide (ref ∈ toToggle) then flipCollapsed region else region).
Proof.
  intros Hl [Eg R]%regionAt_Some. apply regionAt_Some. split.
  - by rewrite Hl.
  - by rewrite regionOf_toggle, R.
Qed.

(** When the region found at a line does not depend on what is collapsed:
    the callback of an icon click, run twice, leaves the folding model as it
    was; the callback of a click at the end of the line, run a second time,
    changes nothing and reveals nothing. *)
Theorem second_click `{Collaborators} (m : FoldingModel) (line : Z) :
  lookupIgnoresCollapse m line →
  (onEditorMouseUp_then line true (onEditorMouseUp_then line true m).1).1 = m
  ∧ onEditorMouseUp_then line false (onEditorMouseUp_then line false m).1
    = ((onEditorMouseUp_then line false m).1, []).
Proof.
  intros Hl. unfold onEditorMouseUp_then at 2 4 5.
  destruct (regionAt m line) as [[ref region]|] eqn:E; cbn.
  - split.
    + unfold onEditorMouseUp_then. rewrite (regionAt_toggle _ _ _ _ _ Hl E). cbn.
      apply toggle_involutive.
    + destruct (isCollapsed region) eqn:C; cbn.
      * unfold onEditorMouseUp_then. rewrite (regionAt_toggle _ _ _ _ _ Hl E).
        rewrite bool_decide_eq_true_2 by by apply list_elem_of_singleton.
        cbn. by rewrite C.
      * unfold onEditorMouseUp_then. by rewrite E, C.
  - unfold onEditorMouseUp_then. by rewrite E.
Qed.

Lemma reference_lookupIgnoresCollapse (m : FoldingModel) (line : Z) :
  lookupIgnoresCollapse (H := Reference.collaborators) m line.
Proof.
  intros toToggle.
  change (Reference.lastHolding (toggleCollapseState toToggle m) line
          = Reference.lastHolding m line).
  unfold Reference.lastHolding, Reference.regionsHolding.
  rewrite toggle_length. f_equal. apply list_filter_iff. intros ref.
  rewrite regionOf_toggle. destruct (regionOf m ref) as [r|]; [|done]. cbn.
  by destruct (bool_decide _).
Qed.

Lemma second_click_witness :
  (onEditorMouseUp_then (H := Reference.collaborators) 5 true
     (onEditorMouseUp_then (H := Reference.collaborators) 5 true
        Examples.model).1).1
  = Examples.model.
Proof.
  exact (proj1 (second_click (H := Reference.collaborators) Examples.model 5
    (reference_lookupIgnoresCollapse Examples.model 5))).
Defined.

(** ** A whole click *)

(** A left-button mouse-down on the gutter's line decorations more than 12
    pixels in, whatever gesture was recorded before, followed by a mouse-up:
    when the mouse-up is on the line decorations of the same line the
    callback of an icon click at that line is registered, and when it does
    not fit (another line, another target, no range) nothing is registered.
    Either way the gesture of the mouse-down stays recorded. *)
Theorem icon_click `{Collaborators} (down up : IEditorMouseEvent)
    (this : FoldingController) (r : Range) (promise : TPromise) :
  range (target down) = Some r →
  leftButton (event down) = true →
  type (target down) = GUTTER_LINE_DECORATIONS →
  offsetX (detail (target down)) - glyphMarginWidth (detail (target down))
    - lineNumbersWidth (detail (target down)) > 12 →
  foldingModelPromise this = Some promise →
  let recorded := {| lineNumber := startLineNumber r; iconClicked := true |} in
  let after := set_mouseDownInfo (Some recorded) this in
  (upMatches up after recorded →
     click down up this
     = (Normal (Some (MouseUpThen (startLineNumber r) true)), after))
  ∧ (upMismatches up after recorded → click down up this = (Normal None, after)).
Proof.
  intros Er El Et Eo Ep recorded after.
  assert (onEditorMouseDown down this = (Normal (), after)) as Ed.
  { unfold onEditorMouseDown, mouseDownSwitch. run. rewrite Er, El. cbn.
    rewrite Et. rewrite bool_decide_eq_false_2 by lia. by run. }
  unfold click. run. rewrite Ed. split.
  - intros M. by rewrite (onEditorMouseUp_registers up after recorded promise).
  - intros M. by rewrite (onEditorMouseUp_mismatch up after recorded).
Qed.

Lemma icon_click_witness :
  click (Examples.gutterAt 5) (Examples.gutterAt 5)
    (Examples.attached Examples.model []
       (Some {| lineNumber := 22; iconClicked := false |}))
  = (Normal (Some (MouseUpThen 5 true)),
     Examples.attached Examples.model []
       (Some {| lineNumber := 5; iconClicked := true |})).
Proof.
  refine (proj1 (icon_click (H := Reference.collaborators)
    (Examples.gutterAt 5) (Examples.gutterAt 5)
    (Examples.attached Examples.model []
       (Some {| lineNumber := 22; iconClicked := false |}))
    _ (TriggeredBy {| delayer_delay := 200 |})
    eq_refl eq_refl eq_refl _ eq_refl) _).
  - cbn. lia.
  - eexists. split; [reflexivity|]. split; [reflexivity|]. split; [done|done].
Defined.

(** A left-button mouse-down past the last character of a line (on text, or
    on empty content not below the line), followed by a mouse-up: when the
    mouse-up is at the maximal column of the same line, on whatever target,
    the callback of a click at the end of that line is registered, and when
    it does not fit nothing is registered. *)
Theorem end_of_line_click `{Collaborators} (down up : IEditorMouseEvent)
    (this : FoldingController) (r : Range) (model : TextModel)
    (promise : TPromise) :
  range (target down) = Some r →
  leftButton (event down) = true →
  getModel (editor this) = Some model →
  startColumn r = getLineMaxColumn model (startLineNumber r) →
  type (target down) = CONTENT_TEXT
  ∨ (type (target down) = CONTENT_EMPTY
     ∧ posy (event down)
       ≤ domNodePagePosition_top (editor this)
         + sp_top (getScrolledVisiblePosition (editor this) (getEndPosition r))
         + sp_height (getScrolledVisiblePosition (editor this) (getEndPosition r))) →
  foldingModelPromise this = Some promise →
  let recorded := {| lineNumber := startLineNumber r; iconClicked := false |} in
  let after := set_mouseDownInfo (Some recorded) this in
  (upMatches up after recorded →
     click down up this
     = (Normal (Some (MouseUpThen (startLineNumber r) false)), after))
  ∧ (upMismatches up after recorded → click down up this = (Normal None, after)).
Proof.
  intros Er El Em Ec Et Ep recorded after.
  assert (onEditorMouseDown down this = (Normal (), after)) as Ed.
  { unfold onEditorMouseDown, mouseDownSwitch. run. rewrite Er, El. cbn.
    destruct Et as [-> | [-> Hy]]; run; cbn; rewrite Em; run.
    - rewrite bool_decide_eq_true_2 by done. by run.
    - rewrite bool_decide_eq_true_2 by done.
      rewrite bool_decide_eq_false_2 by lia. by run. }
  unfold click. run. rewrite Ed. split.
  - intros M. by rewrite (onEditorMouseUp_registers up after recorded promise).
  - intros M. by rewrite (onEditorMouseUp_mismatch up after recorded).
Qed.

Lemma end_of_line_click_witness :
  click (Examples.endOfLineAt true 5) (Examples.endOfLineAt true 6)
    (Examples.attached Examples.model [] None)
  = (Normal None,
     Examples.attached Examples.model []
       (Some {| lineNumber := 5; iconClicked := false |})).
Proof.
  refine (proj2 (end_of_line_click (H := Reference.collaborators)
    (Examples.endOfLineAt true 5) (Examples.endOfLineAt true 6)
    (Examples.attached Examples.model [] None)
    _ Examples.buffer (TriggeredBy {| delayer_delay := 200 |})
    eq_refl eq_refl eq_refl eq_refl _ eq_refl) _).
  - right. split; [reflexivity|]. cbn. lia.
  - right; left. eexists. split; [reflexivity|]. cbn. lia.
Defined.

(** ** Construction *)

Lemma newFoldingController_result (ed : Editor) (config : ContribInfo) :
  ∃ this',
    onModelChanged
      {| editor := ed; _isEnabled := folding config; foldingModel := None;
         foldingModelPromise := None; updateScheduler := None;
         cursorChangedScheduler := None; localToDispose := [];
         mouseDownInfo := None |} = (Normal (), this')
    ∧ newFoldingController ed config
      = (Normal (),
         {| fields := this';
            _autoHideFoldingControls := isMouseover config;
            provider_autoHideFoldingControls := isMouseover config;
            globalToDispose :=
              [ModelChangeListener; ConfigurationListener; LocalDisposer] |}).
Proof.
  eexists. split; [apply onModelChanged_result|].
  unfold newFoldingController, onFields. by rewrite onModelChanged_result.
Qed.

(** A controller constructed on an editor that has a model, with folding
    enabled, is attached: it has a folding model of no region, the promise
    of its first update and its ten disposables; a folding command finds the
    promise and registers its work on it, and [saveViewState] returns a
    snapshot with no collapsed index and the line count of the model. *)
Theorem new_controller_attached (ed : Editor) (config : ContribInfo)
    (model : TextModel) :
  getModel ed = Some model →
  folding config = true →
  ∃ o,
    newFoldingController ed config = (Normal (), o)
    ∧ attachedController (fields o)
    ∧ foldingModel (fields o) = Some newFoldingModel
    ∧ length (localToDispose (fields o)) = 10%nat
    ∧ mouseDownInfo (fields o) = None
    ∧ runEditorCommand (Some (fields o))
      = {| telemetryReports := 1; completion := Normal true |}
    ∧ saveViewState (fields o)
      = (Normal {| collapsedIndexes := Some [];
                   lineCount := Some (getLineCount model) |}, fields o).
Proof.
  intros Em Ef.
  destruct (newFoldingController_result ed config) as (this' & E & ->).
  rewrite onModelChanged_result in E. cbn in E. rewrite Em, Ef in E.
  injection E as <-. eexists. split; [done|]. cbn.
  split. { repeat split; cbn; rewrite ?Em; eauto. }
  repeat split. unfold saveViewState. run. cbn. rewrite Em. by run.
Qed.

Lemma new_controller_attached_witness :
  ∃ o,
    newFoldingController (Examples.editorOn (Some Examples.buffer) [])
      MoreExamples.foldingOn = (Normal (), o)
    ∧ saveViewState (fields o)
      = (Normal {| collapsedIndexes := Some []; lineCount := Some 30 |},
         fields o).
Proof.
  destruct (new_controller_attached
    (Examples.editorOn (Some Examples.buffer) []) MoreExamples.foldingOn
    Examples.buffer eq_refl eq_refl) as (o & E & _ & _ & _ & _ & _ & S).
  exists o. exact (conj E S).
Defined.

(** A controller constructed on an editor without a model, or with folding
    disabled, builds nothing: no folding model, no promise, no disposable.
    On it [restoreViewState] does nothing, but a folding command throws a
    TypeError once it has reported its telemetry, since there is no promise
    to wait on, and [saveViewState] throws a TypeError when the editor has a
    model, since there is no folding model to read. *)
Theorem new_controller_unattached (ed : Editor) (config : ContribInfo) :
  getModel ed = None ∨ folding config = false →
  ∃ o,
    newFoldingController ed config = (Normal (), o)
    ∧ foldingModel (fields o) = None
    ∧ foldingModelPromise (fields o) = None
    ∧ localToDispose (fields o) = []
    ∧ (∀ state, restoreViewState state (fields o) = (Normal None, fields o))
    ∧ runEditorCommand (Some (fields o))
      = {| telemetryReports := 1; completion := Throw TypeError |}
    ∧ (getModel ed = None → saveViewState (fields o) = (Normal emptyObject, fields o))
    ∧ (∀ model, getModel ed = Some model →
         saveViewState (fields o) = (Throw TypeError, fields o)).
Proof.
  intros Hno.
  destruct (newFoldingController_result ed config) as (this' & E & ->).
  rewrite onModelChanged_result in E. cbn in E.
  assert (this' = {| editor := ed; _isEnabled := folding config;
                     foldingModel := None; foldingModelPromise := None;
                     updateScheduler := None; cursorChangedScheduler := None;
                     localToDispose := []; mouseDownInfo := None |}) as ->.
  { destruct Hno as [Em | Ef].
    - rewrite Em in E. by injection E as <-.
    - rewrite Ef in E |- *. destruct (getModel ed); by injection E as <-. }
  eexists. split; [done|]. cbn. repeat split.
  - intros state. unfold restoreViewState. run. cbn.
    destruct (getModel ed); [|done].
    destruct Hno as [? | ->]; [done|]. done.
  - intros Em. unfold saveViewState. run. cbn. by rewrite Em.
  - intros model Em. unfold saveViewState. run. cbn. by rewrite Em.
Qed.

Lemma new_controller_unattached_witness :
  ∃ o,
    newFoldingController (Examples.editorOn (Some Examples.buffer) [])
      MoreExamples.foldingOff = (Normal (), o)
    ∧ saveViewState (fields o) = (Throw TypeError, fields o).
Proof.
  destruct (new_controller_unattached
    (Examples.editorOn (Some Examples.buffer) []) MoreExamples.foldingOff
    (or_intror eq_refl)) as (o & E & _ & _ & _ & _ & _ & _ & S).
  exists o. exact (conj E (S Examples.buffer eq_refl)).
Defined.

(** ** Configuration changes *)

Lemma onModelContentChanged_result (this : FoldingController) :
  onModelContentChanged this =
  match updateScheduler this with
  | Some scheduler =>
      (Normal (), set_foldingModelPromise (Some (TriggeredBy scheduler)) this)
  | None => (Throw TypeError, this)
  end.
Proof. unfold onModelContentChanged. run. by destruct (updateScheduler this). Qed.

(** The controller after the first half of the listener, lines 74 to 78. *)
Lemma configuration_change_steps (e : IConfigurationChangedEvent)
    (config : ContribInfo) (o : ControllerObject) :
  contribInfo e = true →
  ∃ this1,
    (this1 =
       if bool_decide (_isEnabled (fields o) ≠ folding config)
       then (onModelChanged (set__isEnabled (folding config) (fields o))).2
       else set__isEnabled (folding config) (fields o))
    ∧ onDidChangeConfiguration e config o =
      if bool_decide (_autoHideFoldingControls o ≠ isMouseover config) then
        ((onModelContentChanged this1).1,
         {| fields := (onModelContentChanged this1).2;
            _autoHideFoldingControls := isMouseover config;
            provider_autoHideFoldingControls := isMouseover config;
            globalToDispose := globalToDispose o |})
      else
        (Normal (),
         {| fields := this1;
            _autoHideFoldingControls := isMouseover config;
            provider_autoHideFoldingControls := provider_autoHideFoldingControls o;
            globalToDispose := globalToDispose o |}).
Proof.
  intros Ee. eexists. split; [reflexivity|].
  unfold onDidChangeConfiguration. rewrite Ee.
  unfold mbind, mret, ObjectMethod_bind, ObjectMethod_ret, getObject,
    assignObject, onFields. cbn [fst snd fields assign].
  destruct (bool_decide (_isEnabled (fields o) ≠ folding config)); cbn.
  - rewrite onModelChanged_result. cbn.
    by destruct (bool_decide (_autoHideFoldingControls o ≠ isMouseover config)).
  - by destruct (bool_decide (_autoHideFoldingControls o ≠ isMouseover config)).
Qed.

(** The listener of configuration changes ignores an event that does not
    touch [contribInfo].  Otherwise it leaves [_isEnabled] and the auto-hide
    flag as the configuration has them, and it throws a TypeError exactly
    when the auto-hide option changed and there is no update scheduler to
    trigger: none was built before, and this event did not switch folding on
    with a model in the editor. *)
Theorem configuration_change (e : IConfigurationChangedEvent)
    (config : ContribInfo) (o : ControllerObject) :
  (contribInfo e = false →
     onDidChangeConfiguration e config o = (Normal (), o))
  ∧ (contribInfo e = true →
       _isEnabled (fields (onDidChangeConfiguration e config o).2) = folding config
       ∧ _autoHideFoldingControls (onDidChangeConfiguration e config o).2
         = isMouseover config
       ∧ ((onDidChangeConfiguration e config o).1 = Throw TypeError ↔
          _autoHideFoldingControls o ≠ isMouseover config
          ∧ updateScheduler (fields o) = None
          ∧ ¬ (_isEnabled (fields o) ≠ folding config
               ∧ folding config = true
               ∧ is_Some (getModel (editor (fields o)))))
       ∧ ((onDidChangeConfiguration e config o).1 = Normal ()
          ∨ (onDidChangeConfiguration e config o).1 = Throw TypeError)).
Proof.
  split; [intros Ee; unfold onDidChangeConfiguration; by rewrite Ee|].
  intros Ee. destruct (configuration_change_steps e config o Ee) as (this1 & E1 & ->).
  assert (_isEnabled this1 = folding config) as En.
  { rewrite E1. case_bool_decide; [|done]. rewrite onModelChanged_result. cbn.
    destruct (getModel _); [|done]. by destruct (folding config). }
  assert (updateScheduler this1 = None ↔
          updateScheduler (fields o) = None
          ∧ ¬ (_isEnabled (fields o) ≠ folding config
               ∧ folding config = true
               ∧ is_Some (getModel (editor (fields o))))) as Es.
  { rewrite E1. case_bool_decide as Ec.
    - rewrite onModelChanged_result. cbn.
      destruct (getModel (editor (fields o))) as [model|] eqn:Em.
      + destruct (folding config) eqn:Ef; cbn.
        * split; [done|]. intros [_ N]. destruct N. eauto.
        * split; [|by intros [? _]]. intros ?. split; [done|]. by intros (_ & ? & _).
      + cbn. split; [|by intros [? _]]. intros ?. split; [done|].
        intros (_ & _ & [? ?]). done.
    - cbn. split; [|by intros [? _]]. intros ?. split; [done|]. by intros [? _]. }
  clear E1. rewrite onModelContentChanged_result.
  case_bool_decide as Eh; cbn.
  - destruct (updateScheduler this1) as [scheduler|] eqn:Eu; cbn.
    + split; [done|]. split; [done|]. split; [|by left].
      split; [done|]. intros (_ & N). apply Es in N. done.
    + split; [done|]. split; [done|]. split; [|by right].
      split; [|done]. intros _. split; [done|]. by apply Es.
  - split; [done|]. split; [done|]. split; [|by left].
    split; [done|]. by intros [? _].
Qed.

(** A controller built on an editor without a model throws on the first
    change of the fold controls' visibility. *)
Example configuration_change_without_scheduler :
  ∃ o,
    newFoldingController (Examples.editorOn None []) MoreExamples.foldingOff
      = (Normal (), o)
    ∧ (onDidChangeConfiguration {| contribInfo := true |}
         MoreExamples.alwaysShown o).1 = Throw TypeError.
Proof. eexists. split; reflexivity. Qed.

(** ** Command arguments *)




(** ** Fold level actions *)







